(** * PricingRule: validated pricing rules and their price computation

    A shallow embedding of [src/entities/pricing-rule.ts].

    The file has four parts:
    - [Number]: the ECMAScript [number] type (IEEE 754 binary64) with
      the built-in operations the class uses: [Math.floor], [%], [>];
    - [Js]: the primitive values a definition field can hold at run time,
      [typeof], the numeric coercions, and completions (normal / throw);
    - the class itself: constructor, [validateDefinition], [apply] and
      the three private algorithms, as state-passing methods over the
      instance;
    - the heap: instances as objects with three writable public fields,
      the definition held by reference and shared with the caller;
    - the properties. *)

From Stdlib Require Import ZArith Bool Ascii Floats.
From stdpp Require Import base option strings gmap.

Local Open Scope string_scope.

(** ** The [number] type *)

Module Number.

Local Open Scope float_scope.

(** [n] as a float, for [0 <= n < 2^53] (exact in that range). *)
Definition of_Z (n : Z) : float := of_uint63 (Uint63.of_Z n).

(** [Number.isFinite]: neither NaN nor an infinity. *)
Definition isFinite (x : float) : bool :=
  match Prim2SF x with
  | S754_zero _ | S754_finite _ _ _ => true
  | S754_nan | S754_infinity _ => false
  end.

(** [Number.isInteger]. *)
Definition isInteger (x : float) : bool :=
  match Prim2SF x with
  | S754_zero _ => true
  | S754_finite _ m e =>
      (0 <=? e)%Z || (Z.land (Zpos m) (Z.ones (- e)) =? 0)%Z
  | S754_nan | S754_infinity _ => false
  end.

(** [Math.floor]: the largest integral number not above [x]; NaN, the
    zeros and the infinities are returned as they are.  A finite
    [x = (-1)^s * m * 2^e] with [e >= 0] is integral already; with
    [e < 0] its magnitude is below [2^53] and the floor is computed on
    the mantissa. *)
Definition floor (x : float) : float :=
  match Prim2SF x with
  | S754_finite s m e =>
      if (0 <=? e)%Z then x
      else
        let n := Z.shiftr (Zpos m) (- e) in
        let exact := (Z.land (Zpos m) (Z.ones (- e)) =? 0)%Z in
        if s then - of_Z (if exact then n else n + 1)
        else of_Z n
  | S754_nan | S754_zero _ | S754_infinity _ => x
  end.

(** [n % d] (Number::remainder): the sign follows the dividend, the
    quotient is truncated, and the result is exact. *)
Definition rem (n d : float) : float :=
  match Prim2SF n, Prim2SF d with
  | S754_nan, _ | _, S754_nan => nan
  | S754_infinity _, _ => nan
  | _, S754_infinity _ => n
  | _, S754_zero _ => nan
  | S754_zero _, _ => n
  | S754_finite sn mn en, S754_finite _ md ed =>
      let e := Z.min en ed in
      let N := (Zpos mn * 2 ^ (en - e))%Z in
      let D := (Zpos md * 2 ^ (ed - e))%Z in
      match (N mod D)%Z with
      | Zpos r => SF2Prim (S754_finite sn r e)
      | _ => if sn then neg_zero else zero
      end
  end.

(** [x > y] on numbers: false as soon as one side is NaN. *)
Definition gt (x y : float) : bool := (y <? x).

(** [z < x] for a BigInt [z] and a number [x], compared as reals. *)
Definition Z_lt (z : Z) (x : float) : bool :=
  match Prim2SF x with
  | S754_nan => false
  | S754_infinity s => negb s
  | S754_zero _ => (z <? 0)%Z
  | S754_finite s m e =>
      let m' := if s then Zneg m else Zpos m in
      if (0 <=? e)%Z then (z <? m' * 2 ^ e)%Z
      else (z * 2 ^ (- e) <? m')%Z
  end.

End Number.

(** ** Run-time values and completions *)

Module Js.

(** The primitive values a field of the definition object can hold.  A
    missing property reads as [VUndefined]. *)
Inductive value : Type :=
| VUndefined
| VNull
| VBool (b : bool)
| VNumber (x : float)
| VString (s : string)
| VBigInt (z : Z).

Definition typeof (v : value) : string :=
  match v with
  | VUndefined => "undefined"
  | VNull => "object"
  | VBool _ => "boolean"
  | VNumber _ => "number"
  | VString _ => "string"
  | VBigInt _ => "bigint"
  end.

Inductive exn : Type :=
| Error (message : string)
| TypeError (message : string).

Definition message (e : exn) : string :=
  match e with Error m | TypeError m => m end.

(** The outcome of evaluating an expression or a call. *)
Inductive completion (A : Type) : Type :=
| Normal (a : A)
| Throw (e : exn).
Arguments Normal {A} a.
Arguments Throw {A} e.

Inductive numeric : Type :=
| NNumber (x : float)
| NBigInt (z : Z).

Section Coercions.

(** The text-to-number conversion applied to string operands
    (StringToNumber of the language); the class never inspects it. *)
Variable StringToNumber : string -> float.

Definition ToNumeric (v : value) : numeric :=
  match v with
  | VUndefined => NNumber nan
  | VNull => NNumber zero
  | VBool b => NNumber (if b then one else zero)
  | VNumber x => NNumber x
  | VString s => NNumber (StringToNumber s)
  | VBigInt z => NBigInt z
  end.

(** [x op v] for a number [x] and [op] one of [*], [/], [%]: the
    right operand is coerced; a BigInt cannot be mixed with a
    number. *)
Definition arith (op : float -> float -> float) (x : float) (v : value)
  : completion float :=
  match ToNumeric v with
  | NNumber y => Normal (op x y)
  | NBigInt _ =>
      Throw (TypeError
               "Cannot mix BigInt and other types, use explicit conversions")
  end.

Definition mul := arith PrimFloat.mul.
Definition div := arith PrimFloat.div.
Definition rem := arith Number.rem.

(** [x > v] for a number [x]. *)
Definition gt (x : float) (v : value) : completion bool :=
  match ToNumeric v with
  | NNumber y => Normal (Number.gt x y)
  | NBigInt z => Normal (Number.Z_lt z x)
  end.

End Coercions.

End Js.

Import Js.

(** ** The class *)

Record PricingRule : Type := mkPricingRule {
  skuId : string;
  type : string;
  definition : gmap string value;
}.

(** A method runs on [this] and hands back the instance as it leaves it. *)
Definition method (A : Type) : Type :=
  PricingRule -> completion A * PricingRule.

#[global] Instance method_ret : MRet method :=
  fun A a this => (Normal a, this).

#[global] Instance method_bind : MBind method :=
  fun A B k m this =>
    match m this with
    | (Normal a, this') => k a this'
    | (Throw e, this') => (Throw e, this')
    end.

Definition throw {A : Type} (e : exn) : method A :=
  fun this => (Throw e, this).

Definition lift {A : Type} (c : completion A) : method A :=
  fun this => (c, this).

Definition this_skuId : method string :=
  fun this => (Normal (skuId this), this).

Definition this_type : method string :=
  fun this => (Normal (type this), this).

(** [this.definition.<name>] *)
Definition this_definition (name : string) : method value :=
  fun this => (Normal (default VUndefined (definition this !! name)), this).

Definition quoted (s : string) : string :=
  String "034"%char (s ++ String "034"%char "").

Definition not_number (v : value) : bool :=
  negb (String.eqb (typeof v) "number").

Definition validateDefinition : method unit :=
  ty ← this_type;
  if String.eqb ty "discount" then
    quantity ← this_definition "quantity";
    discountedQuantity ← this_definition "discountedQuantity";
    if not_number quantity || not_number discountedQuantity then
      sku ← this_skuId;
      throw (Error ("Invalid definition for discount rule on SKU " ++ sku
                    ++ ". Expected " ++ quoted "quantity" ++ " and "
                    ++ quoted "discountedQuantity" ++ " to be numbers."))
    else mret tt
  else if String.eqb ty "reducedPrice" then
    quantity ← this_definition "quantity";
    bulkPrice ← this_definition "bulkPrice";
    if not_number quantity || not_number bulkPrice then
      sku ← this_skuId;
      throw (Error ("Invalid definition for reduced price rule on SKU " ++ sku
                    ++ ". Expected " ++ quoted "quantity" ++ " and "
                    ++ quoted "bulkPrice" ++ " to be numbers."))
    else mret tt
  else if String.eqb ty "both" then
    quantity ← this_definition "quantity";
    discountedQuantity ← this_definition "discountedQuantity";
    bulkPrice ← this_definition "bulkPrice";
    if not_number quantity || not_number discountedQuantity
       || not_number bulkPrice then
      sku ← this_skuId;
      throw (Error ("Invalid definition for combined rule on SKU " ++ sku
                    ++ ". Expected " ++ quoted "quantity" ++ ", "
                    ++ quoted "discountedQuantity" ++ ", and "
                    ++ quoted "bulkPrice" ++ " to be numbers."))
    else mret tt
  else
    throw (Error ("Unknown rule type: " ++ ty)).

(** [new PricingRule(skuId, type, definition)]: the three parameter
    properties are assigned, then the definition is validated; a throw
    leaves the caller without an instance. *)
Definition new_PricingRule
    (skuId type : string) (definition : gmap string value)
  : completion PricingRule :=
  match validateDefinition (mkPricingRule skuId type definition) with
  | (Normal _, this) => Normal this
  | (Throw e, _) => Throw e
  end.

Section Apply.

Variable StringToNumber : string -> float.

Local Open Scope float_scope.

Definition applyDiscount (count price : float) : method float :=
  quantity ← this_definition "quantity";
  sets ← lift (Js.div StringToNumber count quantity);
  let discountSets := Number.floor sets in
  quantity ← this_definition "quantity";
  remainingItems ← lift (Js.rem StringToNumber count quantity);
  discountedQuantity ← this_definition "discountedQuantity";
  charged ← lift (Js.mul StringToNumber discountSets discountedQuantity);
  mret ((charged + remainingItems) * price).

Definition applyReducedPrice (count price : float) : method float :=
  quantity ← this_definition "quantity";
  over ← lift (Js.gt StringToNumber count quantity);
  if (over : bool) then
    bulkPrice ← this_definition "bulkPrice";
    lift (Js.mul StringToNumber count bulkPrice)
  else mret (count * price).

Definition applyBoth (count price : float) : method float :=
  quantity ← this_definition "quantity";
  sets ← lift (Js.div StringToNumber count quantity);
  let discountSets := Number.floor sets in
  discountedQuantity ← this_definition "discountedQuantity";
  discountedItemsCount ←
    lift (Js.mul StringToNumber discountSets discountedQuantity);
  quantity ← this_definition "quantity";
  remainingItems ← lift (Js.rem StringToNumber count quantity);
  let totalDiscountedCount := discountedItemsCount + remainingItems in
  quantity ← this_definition "quantity";
  over ← lift (Js.gt StringToNumber totalDiscountedCount quantity);
  if (over : bool) then
    bulkPrice ← this_definition "bulkPrice";
    lift (Js.mul StringToNumber totalDiscountedCount bulkPrice)
  else mret ((discountedItemsCount + remainingItems) * price).

Definition apply (count price : float) : method float :=
  ty ← this_type;
  if String.eqb ty "discount" then applyDiscount count price
  else if String.eqb ty "reducedPrice" then applyReducedPrice count price
  else if String.eqb ty "both" then applyBoth count price
  else mret (count * price).

End Apply.

(** ** The heap *)

(** The class declares [skuId], [type] and [definition] as public
    parameter properties, none of them [readonly], and the constructor
    keeps the definition object it is handed: an instance is an object
    with three writable fields, the third a reference that the caller
    still holds. *)

Definition ref : Type := positive.

(** A PricingRule object as it lies in the heap. *)
Record instance : Type := mkInstance {
  i_skuId : string;
  i_type : string;
  i_definition : ref;
}.

Record heap : Type := mkHeap {
  objects : gmap ref (gmap string value);
  instances : gmap ref instance;
}.

(** What [this] reaches from the reference [r]: the three fields, with
    the definition object read through its reference. *)
Definition this_of (h : heap) (r : ref) : option PricingRule :=
  i ← instances h !! r;
  d ← objects h !! i_definition i;
  Some (mkPricingRule (i_skuId i) (i_type i) d).

(** Store what a method left in [this]: the fields in the instance, the
    properties in the definition object the instance refers to. *)
Definition store_this (h : heap) (r : ref) (this : PricingRule) : heap :=
  match instances h !! r with
  | Some i =>
      mkHeap (<[ i_definition i := definition this ]> (objects h))
             (<[ r := mkInstance (skuId this) (type this) (i_definition i) ]>
                (instances h))
  | None => h
  end.

(** [r.m(...)]: run the method on what [r] reaches and store what it
    leaves; [None] when [r] or its definition is not in the heap. *)
Definition invoke {A : Type} (m : method A) (r : ref) (h : heap)
  : option (completion A * heap) :=
  this ← this_of h r;
  let '(c, this') := m this in
  Some (c, store_this h r this').

(** [new PricingRule(skuId, type, definition)] with [definition] a
    reference: a fresh object receives the three arguments as they are,
    the reference included, and is validated.  When the validation
    throws nothing refers to the object, and it is dropped. *)
Definition new_PricingRule_ref (skuId type : string) (definition : ref)
    (h : heap) : option (completion ref * heap) :=
  let r := fresh (dom (instances h)) in
  let h1 :=
    mkHeap (objects h)
           (<[ r := mkInstance skuId type definition ]> (instances h)) in
  '(c, h2) ← invoke validateDefinition r h1;
  match c with
  | Normal _ => Some (Normal r, h2)
  | Throw e => Some (Throw e, h)
  end.

(** Statements of the code that holds the instance, all of them
    accepted by the declared types. *)

(** [rule.type = ty] *)
Definition assign_type (ty : string) : method unit :=
  fun this => (Normal tt, mkPricingRule (skuId this) ty (definition this)).

(** [rule.definition.<name> = v] *)
Definition assign_property (name : string) (v : value) : method unit :=
  fun this =>
    (Normal tt,
     mkPricingRule (skuId this) (type this)
       (<[ name := v ]> (definition this))).

(** [delete d.<name>], on a reference to a definition object *)
Definition delete_property (d : ref) (name : string) (h : heap) : heap :=
  mkHeap (alter (delete name) d (objects h)) (instances h).

(** An object literal: a fresh reference to a new object. *)
Definition new_object (o : gmap string value) (h : heap) : ref * heap :=
  let d := fresh (dom (objects h)) in
  (d, mkHeap (<[ d := o ]> (objects h)) (instances h)).

(** [rule.definition = d] *)
Definition assign_definition (r d : ref) (h : heap) : heap :=
  mkHeap (objects h)
         (alter (fun i => mkInstance (i_skuId i) (i_type i) d) r
            (instances h)).

(** ** Vocabulary of the specification *)

(** The fields each recognized variant requires; [None] for any other
    type string. *)
Definition required_fields (ty : string) : option (list string) :=
  if String.eqb ty "discount" then
    Some ["quantity"; "discountedQuantity"]
  else if String.eqb ty "reducedPrice" then
    Some ["quantity"; "bulkPrice"]
  else if String.eqb ty "both" then
    Some ["quantity"; "discountedQuantity"; "bulkPrice"]
  else None.

(** The field is present and holds a number. *)
Definition has_number (d : gmap string value) (name : string) : Prop :=
  exists x, d !! name = Some (VNumber x).

(** The invariant of an instance: its type is one of the three variants
    and every field that variant requires holds a number. *)
Definition valid (r : PricingRule) : Prop :=
  exists names,
    required_fields (type r) = Some names
    /\ Forall (has_number (definition r)) names.

(** The field holds a finite number (neither NaN nor an infinity). *)
Definition finite_field (d : gmap string value) (name : string) : Prop :=
  exists x, d !! name = Some (VNumber x) /\ Number.isFinite x = true.

(** Every field the variant requires holds a finite number. *)
Definition finite_definition (ty : string) (d : gmap string value) : Prop :=
  exists names,
    required_fields ty = Some names /\ Forall (finite_field d) names.

(** The [quantity] field holds a number other than zero. *)
Definition nonzero_quantity (d : gmap string value) : Prop :=
  exists q, d !! "quantity" = Some (VNumber q) /\ PrimFloat.is_zero q = false.

(** [needle] occurs in [hay]. *)
Fixpoint contains (needle hay : string) : bool :=
  String.prefix needle hay
  || match hay with
     | EmptyString => false
     | String _ rest => contains needle rest
     end.

(** A message identifies a SKU and a list of fields when it contains the
    SKU identifier and each field name in quotes. *)
Definition identifies (msg sku : string) (names : list string) : Prop :=
  contains sku msg = true
  /\ Forall (fun name => contains (quoted name) msg = true) names.

(** Construction is rejected: (a) the type is not a recognized variant,
    or (b) some field the variant requires is missing or not a number. *)
Definition rejected (ty : string) (d : gmap string value) : Prop :=
  match required_fields ty with
  | None => True
  | Some names => Exists (fun name => ~ has_number d name) names
  end.

(** ** Example rules *)

(** "3 for 2". *)
Definition three_for_two : gmap string value :=
  {[ "quantity" := VNumber 3; "discountedQuantity" := VNumber 2 ]}.

(** 8 a unit when more than 5 are bought. *)
Definition bulk_over_five : gmap string value :=
  {[ "quantity" := VNumber 5; "bulkPrice" := VNumber 8 ]}.

(** "3 for 2", and 5 a unit when more than 3 units are billed. *)
Definition three_for_two_bulk : gmap string value :=
  <[ "bulkPrice" := VNumber 5 ]> three_for_two.

(** A multi-buy rule whose group size is zero. *)
Definition zero_group : gmap string value :=
  {[ "quantity" := VNumber 0; "discountedQuantity" := VNumber 2 ]}.

(** The examples hold no string operand; they run with a conversion
    that reads no string as a number. *)
Definition no_numeric_string : string -> float := fun _ => nan.

(** Construct a rule for SKU "A" and apply it once. *)
Definition run (ty : string) (d : gmap string value) (count price : float)
  : option (completion float) :=
  match new_PricingRule "A" ty d with
  | Normal r => Some (fst (apply no_numeric_string count price r))
  | Throw _ => None
  end.

(** A bulk-price rule whose threshold is NaN. *)
Definition nan_threshold : gmap string value :=
  {[ "quantity" := VNumber nan; "bulkPrice" := VNumber 8 ]}.

(** "3 for 2" with the group size given as a BigInt. *)
Definition bigint_group : gmap string value :=
  <[ "quantity" := VBigInt 3 ]> three_for_two.

(** The heap of a caller that holds "3 for 2" under reference 1. *)
Definition caller_heap : heap :=
  mkHeap {[ 1%positive := three_for_two ]} ∅.

(** The same heap once the caller has constructed a multi-buy rule for
    SKU "A" from its object: the instance refers to the caller's
    object. *)
Definition shared_heap : heap :=
  mkHeap {[ 1%positive := three_for_two ]}
         {[ 1%positive := mkInstance "A" "discount" 1%positive ]}.

(** Another heap, with a multi-buy rule for SKU "B" on an object of the
    same content. *)
Definition other_heap : heap :=
  mkHeap {[ 2%positive := three_for_two ]}
         {[ 5%positive := mkInstance "B" "discount" 2%positive ]}.

(** ** The multi-buy accounting on integers *)

(** The billed units as integer arithmetic has them. *)
Definition billed_Z (quantity discountedQuantity count : Z) : Z :=
  (count / quantity * discountedQuantity + count mod quantity)%Z.

(** For one group size, charged size and count: the numbers the code
    computes are the integer ones, and the threshold test on them is the
    integer comparison. *)
Definition billed_agrees (quantity discountedQuantity count : nat) : bool :=
  let q := Z.of_nat quantity in
  let dq := Z.of_nat discountedQuantity in
  let c := Z.of_nat count in
  PrimFloat.Leibniz.eqb
    (Number.floor (Number.of_Z c / Number.of_Z q) * Number.of_Z dq
     + Number.rem (Number.of_Z c) (Number.of_Z q))%float
    (Number.of_Z (billed_Z q dq c))
  && Bool.eqb
       (Number.gt (Number.of_Z (billed_Z q dq c)) (Number.of_Z q))
       (q <? billed_Z q dq c)%Z.

(** [billed_agrees] for every group size in [1..Q], charged size below
    [DQ] and count below [C]. *)
Definition agrees_upto (Q DQ C : nat) : bool :=
  forallb
    (fun q =>
       forallb
         (fun dq => forallb (fun c => billed_agrees (S q) dq c) (seq 0 C))
         (seq 0 DQ))
    (seq 0 Q).

(** ** Construction *)

Section Construction.

Implicit Types (d : gmap string value) (v : value) (r : PricingRule).

Lemma not_number_false v : not_number v = false <-> exists x, v = VNumber x.
Proof.
  destruct v; cbn; split; intros H; try discriminate; eauto;
    destruct H as [? H]; discriminate.
Qed.

Lemma field_number d name :
  not_number (default VUndefined (d !! name)) = false <-> has_number d name.
Proof.
  rewrite not_number_false. unfold has_number.
  destruct (d !! name) as [v|]; cbn; split; intros [x H]; try discriminate;
    exists x; congruence.
Qed.

Lemma field_not_number d name :
  not_number (default VUndefined (d !! name)) = true <-> ~ has_number d name.
Proof.
  rewrite <- field_number. destruct (not_number _); intuition congruence.
Qed.

Lemma prefix_app s t : String.prefix s (s ++ t) = true.
Proof.
  induction s as [|a s IH]; simpl; [now destruct t|].
  destruct (Ascii.ascii_dec a a); [exact IH | contradiction].
Qed.

Lemma contains_here s t : contains s (s ++ t) = true.
Proof.
  pose proof (prefix_app s t) as H.
  destruct (s ++ t); cbn [contains]; rewrite H; reflexivity.
Qed.

Lemma contains_app_r s a b : contains s b = true -> contains s (a ++ b) = true.
Proof.
  intros H. induction a as [|c a IH]; [exact H|].
  change (String c a ++ b) with (String c (a ++ b)).
  cbn [contains]. rewrite IH. apply orb_true_r.
Qed.

(** Running a method body: unfold the monad and the accessors. *)
Ltac run_method :=
  unfold mbind, method_bind, mret, method_ret, this_type, this_skuId,
    this_definition, throw, lift; cbv beta iota zeta.

Ltac case_type ty :=
  destruct (String.eqb ty "discount") eqn:?;
  [| destruct (String.eqb ty "reducedPrice") eqn:?;
     [| destruct (String.eqb ty "both") eqn:?]].

Ltac case_field d name :=
  let E := fresh "E" in
  destruct (not_number (default VUndefined (d !! name))) eqn:E;
  [apply field_not_number in E | apply field_number in E].

(** No path through the validation assigns to [this]. *)
Lemma validateDefinition_this r : snd (validateDefinition r) = r.
Proof.
  unfold validateDefinition. run_method. cbn [type definition].
  case_type (type r);
    repeat match goal with
      | |- context [if ?b then _ else _] => destruct b
      end; reflexivity.
Qed.

Ltac invert_Forall H :=
  repeat (let H' := fresh in
          inversion_clear H as [|? ? ? H']; try contradiction;
          rename H' into H).

Ltac settle_valid :=
  cbn; split;
  [ first [ discriminate
          | intros _; eexists; split;
            [reflexivity | repeat constructor; assumption] ]
  | first [ reflexivity
          | let Hn := fresh "Hn" in
            intros (names & [= <-] & Hn); invert_Forall Hn ] ].

(** Validation passes exactly on the instances that satisfy the
    invariant. *)
Lemma validateDefinition_Normal r :
  fst (validateDefinition r) = Normal tt <-> valid r.
Proof.
  unfold validateDefinition, valid, required_fields. run_method.
  case_type (type r).
  - case_field (definition r) "quantity";
      case_field (definition r) "discountedQuantity"; settle_valid.
  - case_field (definition r) "quantity";
      case_field (definition r) "bulkPrice"; settle_valid.
  - case_field (definition r) "quantity";
      case_field (definition r) "discountedQuantity";
      case_field (definition r) "bulkPrice"; settle_valid.
  - cbn. split; [discriminate | intros (names & [=] & _)].
Qed.

(** What a failed validation reports. *)
Lemma validateDefinition_Throw r e :
  fst (validateDefinition r) = Throw e ->
  match required_fields (type r) with
  | Some names => identifies (message e) (skuId r) names
  | None => e = Error ("Unknown rule type: " ++ type r)
  end.
Proof.
  unfold validateDefinition, required_fields, identifies. run_method.
  case_type (type r);
    repeat match goal with
      | |- context [if ?b then _ else _] => destruct b
      end; cbn [fst]; intros [= <-]; try reflexivity; cbn [message];
    (split;
     [ apply contains_app_r, contains_here
     | repeat constructor; do 2 apply contains_app_r;
       vm_compute; reflexivity ]).
Qed.

Lemma new_PricingRule_Normal sku ty d r :
  new_PricingRule sku ty d = Normal r
  <-> r = mkPricingRule sku ty d /\ valid r.
Proof.
  unfold new_PricingRule.
  pose proof (validateDefinition_this (mkPricingRule sku ty d)) as Hthis.
  pose proof (validateDefinition_Normal (mkPricingRule sku ty d)) as Hok.
  destruct (validateDefinition _) as [[[]|e] this]; cbn in Hthis, Hok;
    subst this; split.
  - intros [= <-]. split; [reflexivity | now apply Hok].
  - intros [-> _]. reflexivity.
  - discriminate.
  - intros [-> Hv]. apply Hok in Hv. discriminate.
Qed.

Lemma constructed_fields sku ty d r names :
  new_PricingRule sku ty d = Normal r ->
  required_fields ty = Some names ->
  r = mkPricingRule sku ty d /\ Forall (has_number d) names.
Proof.
  intros H Hreq.
  apply new_PricingRule_Normal in H as [-> (names' & Hreq' & Hall)].
  cbn [type definition] in Hreq', Hall.
  split; [reflexivity | congruence].
Qed.

Lemma new_PricingRule_Throw sku ty d e :
  new_PricingRule sku ty d = Throw e ->
  match required_fields ty with
  | Some names => identifies (message e) sku names
  | None => e = Error ("Unknown rule type: " ++ ty)
  end.
Proof.
  unfold new_PricingRule.
  pose proof (validateDefinition_Throw (mkPricingRule sku ty d) e) as H.
  destruct (validateDefinition _) as [[[]|e'] this]; [discriminate|].
  intros [= ->]. now apply H.
Qed.

Lemma new_PricingRule_cases sku ty d :
  new_PricingRule sku ty d = Normal (mkPricingRule sku ty d)
  \/ exists e, new_PricingRule sku ty d = Throw e.
Proof.
  destruct (new_PricingRule sku ty d) as [r|e] eqn:E; [left | right; eauto].
  apply new_PricingRule_Normal in E as [-> _]. reflexivity.
Qed.

Lemma Forall_has_number_dec d names :
  Forall (has_number d) names \/ Exists (fun n => ~ has_number d n) names.
Proof.
  induction names as [|n names [IH|IH]].
  - left; constructor.
  - destruct (not_number (default VUndefined (d !! n))) eqn:E.
    + right. left. now apply field_not_number.
    + left. constructor; [now apply field_number | exact IH].
  - right. now right.
Qed.

Lemma Forall_Exists_has_number d names :
  Forall (has_number d) names ->
  Exists (fun n => ~ has_number d n) names -> False.
Proof.
  induction 1 as [|n names Hn _ IH]; inversion 1; subst; auto.
Qed.

End Construction.

(** A definition that passes validation keeps passing whatever else it
    carries: only the required fields are read. *)
Lemma valid_agree sku ty d d' names :
  required_fields ty = Some names ->
  (forall name, name ∈ names -> d' !! name = d !! name) ->
  valid (mkPricingRule sku ty d) -> valid (mkPricingRule sku ty d').
Proof.
  intros Hreq Hagree (names' & Hreq' & Hall).
  cbn [type definition] in Hreq', Hall.
  assert (names' = names) as -> by congruence.
  exists names. split; [exact Hreq|]. cbn [type definition].
  rewrite Forall_forall in *. intros n Hn.
  destruct (Hall n Hn) as [x Hx]. exists x. rewrite Hagree; assumption.
Qed.

(** C4 (amended).  Construction fails exactly when the type is not one of
    the three variants or a field required for the type is missing or
    not a number.  A failure on the fields reports a message that
    contains the SKU identifier and every expected field name; a failure
    on the type reports the unknown type.  When all required fields are
    numbers construction succeeds, whatever other fields the definition
    carries. *)
Theorem construction_fails_iff_rejected sku ty d :
  ((exists e, new_PricingRule sku ty d = Throw e) <-> rejected ty d)
  /\ (forall e names,
         new_PricingRule sku ty d = Throw e ->
         required_fields ty = Some names ->
         identifies (message e) sku names)
  /\ (required_fields ty = None ->
      new_PricingRule sku ty d = Throw (Error ("Unknown rule type: " ++ ty)))
  /\ (forall names d',
         required_fields ty = Some names ->
         Forall (has_number d) names ->
         (forall name, name ∈ names -> d' !! name = d !! name) ->
         new_PricingRule sku ty d' = Normal (mkPricingRule sku ty d')).
Proof.
  split; [split | split; [| split]].
  - intros [e He]. unfold rejected.
    destruct (required_fields ty) as [names|] eqn:Hreq; [|exact I].
    destruct (Forall_has_number_dec d names) as [Hall|Hex]; [|exact Hex].
    assert (new_PricingRule sku ty d = Normal (mkPricingRule sku ty d)) as Hn.
    { apply new_PricingRule_Normal. split; [reflexivity|]. now exists names. }
    rewrite Hn in He. discriminate He.
  - intros Hrej.
    destruct (new_PricingRule_cases sku ty d) as [Hn|He]; [|exact He].
    apply new_PricingRule_Normal in Hn as [_ (names & Hreq & Hall)].
    cbn [type definition] in Hreq, Hall.
    unfold rejected in Hrej. rewrite Hreq in Hrej.
    destruct (Forall_Exists_has_number _ _ Hall Hrej).
  - intros e names He Hreq.
    apply new_PricingRule_Throw in He. now rewrite Hreq in He.
  - intros Hreq.
    destruct (new_PricingRule sku ty d) as [r|e] eqn:E.
    + apply new_PricingRule_Normal in E as [-> (names & Hreq' & _)].
      cbn [type] in Hreq'. congruence.
    + apply new_PricingRule_Throw in E. rewrite Hreq in E. now subst.
  - intros names d' Hreq Hall Hagree.
    apply new_PricingRule_Normal. split; [reflexivity|].
    apply (valid_agree sku ty d d' names Hreq Hagree).
    now exists names.
Qed.

(** C6 (amended).  A rule of type 'discount' is constructed exactly when
    [quantity] and [discountedQuantity] both hold a number; the value of
    the number is not examined. *)
Theorem discount_constructed_iff_numbers sku d :
  new_PricingRule sku "discount" d = Normal (mkPricingRule sku "discount" d)
  <-> has_number d "quantity" /\ has_number d "discountedQuantity".
Proof.
  rewrite new_PricingRule_Normal. split.
  - intros [_ (names & [= <-] & Hall)]. cbn in Hall.
    inversion_clear Hall as [|? ? Hq Hall'].
    inversion_clear Hall' as [|? ? Hdq _]. now split.
  - intros [Hq Hdq]. split; [reflexivity|].
    eexists; split; [reflexivity|]. cbn. repeat constructor; assumption.
Qed.

(** ** Facts about numbers *)

Section NumberFacts.

Local Open Scope float_scope.

Lemma SFcompare_refl x :
  x <> S754_nan -> SFcompare x x = Some Eq.
Proof.
  destruct x as [s|s| |s m e]; intros Hx; try contradiction;
    destruct s; cbn; try reflexivity;
    rewrite Z.compare_refl, Pos.compare_cont_refl; reflexivity.
Qed.

(** No number is greater than itself. *)
Lemma gt_irrefl x : Number.gt x x = false.
Proof.
  unfold Number.gt. rewrite FloatAxioms.ltb_spec. unfold SFltb.
  destruct (Prim2SF x) as [s|s| |s m e] eqn:E; try reflexivity;
    rewrite SFcompare_refl; congruence.
Qed.

Lemma Prim2SF_zero : Prim2SF zero = S754_zero false.
Proof. reflexivity. Qed.

Lemma is_zero_true x s : Prim2SF x = S754_zero s -> (x =? zero) = true.
Proof.
  intros H. rewrite FloatAxioms.eqb_spec, H, Prim2SF_zero. reflexivity.
Qed.

(** A finite number is a zero or has a mantissa and an exponent. *)
Lemma isFinite_cases x :
  Number.isFinite x = true ->
  (exists s, Prim2SF x = S754_zero s)
  \/ (exists s m e, Prim2SF x = S754_finite s m e).
Proof.
  unfold Number.isFinite.
  destruct (Prim2SF x) as [s|s| |s m e]; try discriminate; eauto.
Qed.

Lemma finite_nonzero x :
  Number.isFinite x = true -> is_zero x = false ->
  exists s m e, Prim2SF x = S754_finite s m e.
Proof.
  intros Hfin Hnz. destruct (isFinite_cases x Hfin) as [[s Hs]|H]; [|exact H].
  unfold is_zero in Hnz. rewrite (is_zero_true x s Hs) in Hnz. discriminate.
Qed.

Lemma zero_div_finite x sx q s m e :
  Prim2SF x = S754_zero sx -> Prim2SF q = S754_finite s m e ->
  Prim2SF (x / q) = S754_zero (xorb sx s).
Proof. intros Hx Hq. rewrite div_spec, Hx, Hq. reflexivity. Qed.

Lemma floor_zero x s : Prim2SF x = S754_zero s -> Number.floor x = x.
Proof. intros H. unfold Number.floor. now rewrite H. Qed.

Lemma zero_mul_finite x sx y :
  Prim2SF x = S754_zero sx -> Number.isFinite y = true ->
  exists s, Prim2SF (x * y) = S754_zero s.
Proof.
  intros Hx Hy. rewrite mul_spec, Hx.
  destruct (isFinite_cases y Hy) as [[s ->]|(s & m & e & ->)];
    eexists; reflexivity.
Qed.

Lemma rem_zero_finite q s m e :
  Prim2SF q = S754_finite s m e -> Number.rem zero q = zero.
Proof. intros Hq. unfold Number.rem. now rewrite Prim2SF_zero, Hq. Qed.

Lemma zero_add_zero x s : Prim2SF x = S754_zero s -> x + zero = zero.
Proof.
  intros Hx. apply Prim2SF_inj.
  rewrite add_spec, Hx, Prim2SF_zero. now destruct s.
Qed.

(** The billed units of an empty purchase: exactly [+0], provided the
    group size is a finite non-zero number and the charged size is
    finite. *)
Lemma billed_zero q dq :
  Number.isFinite q = true -> is_zero q = false ->
  Number.isFinite dq = true ->
  Number.floor (zero / q) * dq + Number.rem zero q = zero.
Proof.
  intros Hq Hnz Hdq.
  destruct (finite_nonzero q Hq Hnz) as (s & m & e & Hsf).
  pose proof (zero_div_finite zero false q s m e Prim2SF_zero Hsf) as Hdiv.
  rewrite (floor_zero _ _ Hdiv), (rem_zero_finite q s m e Hsf).
  destruct (zero_mul_finite _ _ dq Hdiv Hdq) as [s' Hmul].
  exact (zero_add_zero _ _ Hmul).
Qed.

End NumberFacts.

(** ** Applying a rule *)

Section ApplyProperties.

Variable StringToNumber : string -> float.

Local Open Scope float_scope.

Implicit Types (d : gmap string value) (r : PricingRule).
Implicit Types (count price quantity discountedQuantity bulkPrice : float).


Ltac run_method :=
  unfold mbind, method_bind, mret, method_ret, this_type, this_skuId,
    this_definition, throw, lift; cbv beta iota zeta.

Ltac run_arith :=
  unfold Js.div, Js.mul, Js.rem, Js.gt, Js.arith, Js.ToNumeric;
  cbv beta iota zeta.

(** The three algorithms on a definition whose fields hold numbers. *)

Lemma applyDiscount_numbers r quantity discountedQuantity count price :
  definition r !! "quantity" = Some (VNumber quantity) ->
  definition r !! "discountedQuantity" = Some (VNumber discountedQuantity) ->
  applyDiscount StringToNumber count price r =
    (Normal ((Number.floor (count / quantity) * discountedQuantity
              + Number.rem count quantity) * price), r).
Proof.
  intros Hq Hdq. unfold applyDiscount. run_method.
  rewrite Hq, Hdq. reflexivity.
Qed.

Lemma applyReducedPrice_numbers r quantity bulkPrice count price :
  definition r !! "quantity" = Some (VNumber quantity) ->
  definition r !! "bulkPrice" = Some (VNumber bulkPrice) ->
  applyReducedPrice StringToNumber count price r =
    (Normal (if Number.gt count quantity then count * bulkPrice
             else count * price), r).
Proof.
  intros Hq Hb. unfold applyReducedPrice. run_method.
  rewrite Hq. cbn. unfold Number.gt.
  destruct (quantity <? count); cbn; rewrite ?Hb; reflexivity.
Qed.

Lemma applyBoth_numbers r quantity discountedQuantity bulkPrice count price :
  definition r !! "quantity" = Some (VNumber quantity) ->
  definition r !! "discountedQuantity" = Some (VNumber discountedQuantity) ->
  definition r !! "bulkPrice" = Some (VNumber bulkPrice) ->
  applyBoth StringToNumber count price r =
    (Normal (let billedUnits :=
               Number.floor (count / quantity) * discountedQuantity
               + Number.rem count quantity in
             if Number.gt billedUnits quantity then billedUnits * bulkPrice
             else billedUnits * price), r).
Proof.
  intros Hq Hdq Hb. unfold applyBoth. run_method.
  rewrite Hq, Hdq. cbn. unfold Number.gt.
  destruct (quantity <? _); cbn; rewrite ?Hb; reflexivity.
Qed.

(** The dispatch of [apply] on the type. *)

Lemma apply_discount_type r count price :
  type r = "discount" ->
  apply StringToNumber count price r
  = applyDiscount StringToNumber count price r.
Proof. intros E. unfold apply. run_method. now rewrite E. Qed.

Lemma apply_reducedPrice_type r count price :
  type r = "reducedPrice" ->
  apply StringToNumber count price r
  = applyReducedPrice StringToNumber count price r.
Proof. intros E. unfold apply. run_method. now rewrite E. Qed.

Lemma apply_both_type r count price :
  type r = "both" ->
  apply StringToNumber count price r
  = applyBoth StringToNumber count price r.
Proof. intros E. unfold apply. run_method. now rewrite E. Qed.

Lemma apply_other_type r count price :
  required_fields (type r) = None ->
  apply StringToNumber count price r = (Normal (count * price), r).
Proof.
  unfold apply, required_fields. run_method.
  repeat destruct (String.eqb (type r) _); (discriminate || reflexivity).
Qed.

(** Unpacking a successful construction into the numbers it checked. *)
Ltac constructed H :=
  let Hall := fresh "Hall" in
  eapply constructed_fields in H as [-> Hall]; [|reflexivity];
  repeat (let Hn := fresh "Hn" in
          let Hrest := fresh "Hrest" in
          inversion_clear Hall as [|? ? Hn Hrest]; rename Hrest into Hall);
  repeat match goal with
    | Hn : has_number _ _ |- _ => destruct Hn as [? Hn]
    end.

(** C1.  On a constructed 'both' rule, [apply(count, price)] first
    computes [billedUnits = floor(count/quantity) * discountedQuantity
    + count mod quantity], then returns [billedUnits * bulkPrice] if
    [billedUnits > quantity] (the billed count, not the raw count, is
    compared with the threshold) and [billedUnits * price] otherwise. *)
Theorem apply_both sku d r count price :
  new_PricingRule sku "both" d = Normal r ->
  exists quantity discountedQuantity bulkPrice,
    d !! "quantity" = Some (VNumber quantity)
    /\ d !! "discountedQuantity" = Some (VNumber discountedQuantity)
    /\ d !! "bulkPrice" = Some (VNumber bulkPrice)
    /\ let billedUnits :=
         Number.floor (count / quantity) * discountedQuantity
         + Number.rem count quantity in
       apply StringToNumber count price r =
         (Normal (if Number.gt billedUnits quantity
                  then billedUnits * bulkPrice
                  else billedUnits * price), r).
Proof.
  intros H. constructed H.
  eexists _, _, _. repeat (split; [eassumption|]).
  rewrite apply_both_type by reflexivity.
  now apply applyBoth_numbers.
Qed.

(** C2.  On a constructed 'discount' rule, [apply(count, price)]
    returns [(floor(count/quantity) * discountedQuantity
    + count mod quantity) * price], for every count and price. *)
Theorem apply_discount sku d r count price :
  new_PricingRule sku "discount" d = Normal r ->
  exists quantity discountedQuantity,
    d !! "quantity" = Some (VNumber quantity)
    /\ d !! "discountedQuantity" = Some (VNumber discountedQuantity)
    /\ apply StringToNumber count price r =
         (Normal ((Number.floor (count / quantity) * discountedQuantity
                   + Number.rem count quantity) * price), r).
Proof.
  intros H. constructed H.
  eexists _, _. repeat (split; [eassumption|]).
  rewrite apply_discount_type by reflexivity.
  now apply applyDiscount_numbers.
Qed.

(** C3.  On a constructed 'reducedPrice' rule, [apply(count, price)]
    returns [count * bulkPrice] when [count > quantity] and
    [count * price] otherwise; a count equal to the quantity is charged
    the regular price. *)
Theorem apply_reducedPrice sku d r count price :
  new_PricingRule sku "reducedPrice" d = Normal r ->
  exists quantity bulkPrice,
    d !! "quantity" = Some (VNumber quantity)
    /\ d !! "bulkPrice" = Some (VNumber bulkPrice)
    /\ apply StringToNumber count price r =
         (Normal (if Number.gt count quantity then count * bulkPrice
                  else count * price), r)
    /\ apply StringToNumber quantity price r = (Normal (quantity * price), r).
Proof.
  intros H. constructed H.
  eexists _, _. repeat (split; [eassumption|]).
  rewrite !apply_reducedPrice_type by reflexivity.
  erewrite !applyReducedPrice_numbers by eassumption.
  rewrite gt_irrefl. split; reflexivity.
Qed.

(** C10.  On a constructed 'both' rule, [applyBoth(count, price)] is
    [applyReducedPrice] evaluated at the billed unit count
    [floor(count/quantity) * discountedQuantity + count mod quantity]. *)
Theorem applyBoth_is_applyReducedPrice_of_billed sku d r count price :
  new_PricingRule sku "both" d = Normal r ->
  exists quantity discountedQuantity,
    d !! "quantity" = Some (VNumber quantity)
    /\ d !! "discountedQuantity" = Some (VNumber discountedQuantity)
    /\ apply StringToNumber count price r
       = applyBoth StringToNumber count price r
    /\ applyBoth StringToNumber count price r =
         applyReducedPrice StringToNumber
           (Number.floor (count / quantity) * discountedQuantity
            + Number.rem count quantity) price r.
Proof.
  intros H. constructed H.
  eexists _, _. repeat (split; [eassumption|]).
  split; [now apply apply_both_type|].
  erewrite applyBoth_numbers, applyReducedPrice_numbers by eassumption.
  reflexivity.
Qed.

(** No algorithm assigns to [this], whatever the fields hold. *)

Ltac settle_this :=
  run_method; run_arith;
  repeat case_match; reflexivity.

Lemma applyDiscount_this r count price :
  snd (applyDiscount StringToNumber count price r) = r.
Proof. unfold applyDiscount. settle_this. Qed.

Lemma applyReducedPrice_this r count price :
  snd (applyReducedPrice StringToNumber count price r) = r.
Proof. unfold applyReducedPrice. settle_this. Qed.

Lemma applyBoth_this r count price :
  snd (applyBoth StringToNumber count price r) = r.
Proof. unfold applyBoth. settle_this. Qed.

Lemma apply_this r count price : snd (apply StringToNumber count price r) = r.
Proof.
  unfold apply. run_method.
  repeat case_match;
    auto using applyDiscount_this, applyReducedPrice_this, applyBoth_this.
Qed.

(** On an instance that satisfies the invariant, [apply] completes
    normally. *)
Lemma apply_valid_Normal r count price :
  valid r ->
  exists total, apply StringToNumber count price r = (Normal total, r).
Proof.
  intros (names & Hreq & Hall). unfold required_fields in Hreq.
  destruct (String.eqb (type r) "discount") eqn:E1;
    [| destruct (String.eqb (type r) "reducedPrice") eqn:E2;
       [| destruct (String.eqb (type r) "both") eqn:E3 ] ];
    try discriminate; injection Hreq as <-;
    repeat (let Hn := fresh "Hn" in
            let Hrest := fresh "Hrest" in
            inversion_clear Hall as [|? ? Hn Hrest]; rename Hrest into Hall);
    repeat match goal with
      | Hn : has_number _ _ |- _ => destruct Hn as [? Hn]
      end.
  - apply String.eqb_eq in E1. rewrite apply_discount_type by exact E1.
    erewrite applyDiscount_numbers by eassumption. eauto.
  - apply String.eqb_eq in E2. rewrite apply_reducedPrice_type by exact E2.
    erewrite applyReducedPrice_numbers by eassumption. eauto.
  - apply String.eqb_eq in E3. rewrite apply_both_type by exact E3.
    erewrite applyBoth_numbers by eassumption. eauto.
Qed.

(** C5.  On every constructed rule, [apply(count, price)] completes
    normally with a number, for every count and price; the field its
    divisions and remainders read, [quantity], holds a number whenever
    the variant divides ('discount' and 'both'). *)
Theorem apply_never_throws sku ty d r count price :
  new_PricingRule sku ty d = Normal r ->
  (exists total, apply StringToNumber count price r = (Normal total, r))
  /\ (ty = "discount" \/ ty = "both" ->
      has_number (definition r) "quantity").
Proof.
  intros H. split.
  - apply new_PricingRule_Normal in H as [_ Hv].
    now apply apply_valid_Normal.
  - intros [-> | ->]; constructed H; cbn [definition]; eexists; eassumption.
Qed.

(** C7 (amended).  On a constructed rule whose required fields hold
    finite numbers, with [quantity] other than zero when the variant
    divides by it ('discount' and 'both'), [apply(0, price)] returns
    zero for every finite price. *)
Theorem apply_zero_count sku ty d r price :
  new_PricingRule sku ty d = Normal r ->
  finite_definition ty d ->
  (ty = "discount" \/ ty = "both" -> nonzero_quantity d) ->
  Number.isFinite price = true ->
  exists total,
    apply StringToNumber zero price r = (Normal total, r)
    /\ (total =? zero) = true.
Proof.
  intros H (names & Hreq & Hall) Hnz Hprice.
  apply new_PricingRule_Normal in H as [-> _].
  pose proof (zero_mul_finite zero false price Prim2SF_zero Hprice)
    as [sp Hregular].
  unfold required_fields in Hreq.
  destruct (String.eqb ty "discount") eqn:E1;
    [| destruct (String.eqb ty "reducedPrice") eqn:E2;
       [| destruct (String.eqb ty "both") eqn:E3 ] ];
    try discriminate; injection Hreq as <-.
  - apply String.eqb_eq in E1. subst ty.
    inversion_clear Hall as [|? ? (q & Hq & Hqfin) Hall'].
    inversion_clear Hall' as [|? ? (dq & Hdq & Hdqfin) _].
    destruct Hnz as (q' & Hq' & Hqnz); [now left|].
    assert (q' = q) as -> by congruence.
    rewrite apply_discount_type by reflexivity.
    erewrite applyDiscount_numbers by eassumption.
    eexists. split; [reflexivity|].
    rewrite billed_zero by assumption.
    exact (is_zero_true _ _ Hregular).
  - apply String.eqb_eq in E2. subst ty.
    inversion_clear Hall as [|? ? (q & Hq & Hqfin) Hall'].
    inversion_clear Hall' as [|? ? (b & Hb & Hbfin) _].
    rewrite apply_reducedPrice_type by reflexivity.
    erewrite applyReducedPrice_numbers by eassumption.
    eexists. split; [reflexivity|].
    destruct (zero_mul_finite zero false b Prim2SF_zero Hbfin) as [sb Hbulk].
    destruct (Number.gt zero q); eapply is_zero_true; eassumption.
  - apply String.eqb_eq in E3. subst ty.
    inversion_clear Hall as [|? ? (q & Hq & Hqfin) Hall'].
    inversion_clear Hall' as [|? ? (dq & Hdq & Hdqfin) Hall''].
    inversion_clear Hall'' as [|? ? (b & Hb & Hbfin) _].
    destruct Hnz as (q' & Hq' & Hqnz); [now right|].
    assert (q' = q) as -> by congruence.
    rewrite apply_both_type by reflexivity.
    erewrite applyBoth_numbers by eassumption.
    eexists. split; [reflexivity|].
    cbv zeta. rewrite billed_zero by assumption.
    destruct (zero_mul_finite zero false b Prim2SF_zero Hbfin) as [sb Hbulk].
    destruct (Number.gt zero q); eapply is_zero_true; eassumption.
Qed.

End ApplyProperties.

(** ** Worked examples *)

Section Examples.

Local Open Scope float_scope.

Example floor_examples :
  (Number.floor 2.5, Number.floor (7 / 3), Number.floor 0.5,
   Number.floor (-0.5), Number.floor (-2.5), Number.floor (-3),
   Number.floor (-0), Number.floor infinity, Number.floor nan)
  = (2, 2, 0, -1, -3, -3, -0, infinity, nan).
Proof. vm_compute. reflexivity. Qed.

Example rem_examples :
  (Number.rem 7 3, Number.rem (-7) 3, Number.rem 7 (-3), Number.rem 5.5 2,
   Number.rem 4 2, Number.rem (-4) 2, Number.rem 0 3, Number.rem 3 0,
   Number.rem 5 infinity, Number.rem infinity 5)
  = (1, -1, 1, 1.5, 0, -0, 0, nan, 5, nan).
Proof. vm_compute. reflexivity. Qed.

(** The examples of the specification. *)
Example spec_examples :
  run "discount" three_for_two 7 10 = Some (Normal 50)
  /\ run "reducedPrice" bulk_over_five 5 10 = Some (Normal 50)
  /\ run "reducedPrice" bulk_over_five 6 10 = Some (Normal 48)
  /\ run "both" three_for_two_bulk 4 10 = Some (Normal 30)
  /\ run "both" three_for_two_bulk 10 10 = Some (Normal 35).
Proof. repeat split; vm_compute; reflexivity. Qed.

(** A rule is rejected when a required field is missing, and when it
    holds something other than a number. *)
Example rejected_examples :
  new_PricingRule "A" "both" three_for_two
  = Throw (Error ("Invalid definition for combined rule on SKU A. Expected "
                  ++ quoted "quantity" ++ ", " ++ quoted "discountedQuantity"
                  ++ ", and " ++ quoted "bulkPrice" ++ " to be numbers."))
  /\ new_PricingRule "A" "discount"
       (<[ "quantity" := VString "3" ]> three_for_two)
     = Throw (Error ("Invalid definition for discount rule on SKU A. Expected "
                     ++ quoted "quantity" ++ " and "
                     ++ quoted "discountedQuantity" ++ " to be numbers.")).
Proof. split; vm_compute; reflexivity. Qed.

(** The validation is what keeps [apply] from throwing: on an instance
    that never went through the constructor, a BigInt group size makes
    the division throw. *)
Example apply_unvalidated_throws :
  fst (apply no_numeric_string 7 10
         (mkPricingRule "A" "discount"
            (<[ "quantity" := VBigInt 3 ]> three_for_two)))
  = Throw (TypeError
             "Cannot mix BigInt and other types, use explicit conversions").
Proof. vm_compute. reflexivity. Qed.

End Examples.

(** ** The theorems at concrete rules *)

Section Instances.

Local Open Scope float_scope.

Ltac constructs := vm_compute; reflexivity.

(** Read a field of a concrete definition and name the number found. *)
Ltac known H := vm_compute in H; injection H as <-.

(** [apply_both] on "3 for 2, then 5 a unit": ten units bill as seven,
    above the threshold of three. *)
Lemma apply_both_at_ten :
  new_PricingRule "A" "both" three_for_two_bulk
  = Normal (mkPricingRule "A" "both" three_for_two_bulk)
  /\ apply no_numeric_string 10 10 (mkPricingRule "A" "both" three_for_two_bulk)
     = (Normal 35, mkPricingRule "A" "both" three_for_two_bulk).
Proof.
  assert (new_PricingRule "A" "both" three_for_two_bulk
          = Normal (mkPricingRule "A" "both" three_for_two_bulk)) as H
    by constructs.
  split; [exact H|].
  destruct (apply_both no_numeric_string _ _ _ 10 10 H)
    as (q & dq & b & Hq & Hdq & Hb & Happly).
  known Hq. known Hdq. known Hb. exact Happly.
Defined.

(** [apply_discount] on "3 for 2": seven units bill as five. *)
Lemma apply_discount_at_seven :
  new_PricingRule "A" "discount" three_for_two
  = Normal (mkPricingRule "A" "discount" three_for_two)
  /\ apply no_numeric_string 7 10 (mkPricingRule "A" "discount" three_for_two)
     = (Normal 50, mkPricingRule "A" "discount" three_for_two).
Proof.
  assert (new_PricingRule "A" "discount" three_for_two
          = Normal (mkPricingRule "A" "discount" three_for_two)) as H
    by constructs.
  split; [exact H|].
  destruct (apply_discount no_numeric_string _ _ _ 7 10 H)
    as (q & dq & Hq & Hdq & Happly).
  known Hq. known Hdq. exact Happly.
Defined.

(** [apply_reducedPrice] just above and exactly at the threshold. *)
Lemma apply_reducedPrice_at_threshold :
  new_PricingRule "A" "reducedPrice" bulk_over_five
  = Normal (mkPricingRule "A" "reducedPrice" bulk_over_five)
  /\ apply no_numeric_string 6 10
       (mkPricingRule "A" "reducedPrice" bulk_over_five)
     = (Normal 48, mkPricingRule "A" "reducedPrice" bulk_over_five)
  /\ apply no_numeric_string 5 10
       (mkPricingRule "A" "reducedPrice" bulk_over_five)
     = (Normal 50, mkPricingRule "A" "reducedPrice" bulk_over_five).
Proof.
  assert (new_PricingRule "A" "reducedPrice" bulk_over_five
          = Normal (mkPricingRule "A" "reducedPrice" bulk_over_five)) as H
    by constructs.
  split; [exact H|].
  destruct (apply_reducedPrice no_numeric_string _ _ _ 6 10 H)
    as (q & b & Hq & Hb & Hover & Hat).
  known Hq. known Hb. split; [exact Hover | exact Hat].
Defined.

(** [applyBoth] on ten units is [applyReducedPrice] on the seven billed. *)
Lemma applyBoth_at_ten :
  new_PricingRule "A" "both" three_for_two_bulk
  = Normal (mkPricingRule "A" "both" three_for_two_bulk)
  /\ applyBoth no_numeric_string 10 10
       (mkPricingRule "A" "both" three_for_two_bulk)
     = applyReducedPrice no_numeric_string 7 10
         (mkPricingRule "A" "both" three_for_two_bulk).
Proof.
  assert (new_PricingRule "A" "both" three_for_two_bulk
          = Normal (mkPricingRule "A" "both" three_for_two_bulk)) as H
    by constructs.
  split; [exact H|].
  destruct (applyBoth_is_applyReducedPrice_of_billed
              no_numeric_string _ _ _ 10 10 H)
    as (q & dq & Hq & Hdq & _ & Hboth).
  known Hq. known Hdq. exact Hboth.
Defined.

(** [apply_never_throws] on "3 for 2". *)
Lemma apply_never_throws_at_seven :
  new_PricingRule "A" "discount" three_for_two
  = Normal (mkPricingRule "A" "discount" three_for_two)
  /\ (exists total,
         apply no_numeric_string 7 10
           (mkPricingRule "A" "discount" three_for_two)
         = (Normal total, mkPricingRule "A" "discount" three_for_two))
  /\ has_number three_for_two "quantity".
Proof.
  assert (new_PricingRule "A" "discount" three_for_two
          = Normal (mkPricingRule "A" "discount" three_for_two)) as H
    by constructs.
  split; [exact H|].
  destruct (apply_never_throws no_numeric_string _ _ _ _ 7 10 H)
    as [Htotal Hquantity].
  split; [exact Htotal | exact (Hquantity (or_introl eq_refl))].
Defined.

(** [apply_zero_count] on "3 for 2": an empty purchase costs nothing. *)
Lemma apply_zero_count_three_for_two :
  new_PricingRule "A" "discount" three_for_two
  = Normal (mkPricingRule "A" "discount" three_for_two)
  /\ finite_definition "discount" three_for_two
  /\ nonzero_quantity three_for_two
  /\ Number.isFinite 10 = true
  /\ exists total,
       apply no_numeric_string 0 10
         (mkPricingRule "A" "discount" three_for_two)
       = (Normal total, mkPricingRule "A" "discount" three_for_two)
       /\ (total =? 0) = true.
Proof.
  assert (new_PricingRule "A" "discount" three_for_two
          = Normal (mkPricingRule "A" "discount" three_for_two)) as H
    by constructs.
  assert (finite_definition "discount" three_for_two) as Hfinite.
  { eexists. split; [reflexivity|].
    repeat constructor; eexists; split; constructs. }
  assert (nonzero_quantity three_for_two) as Hnonzero
    by (eexists; split; constructs).
  assert (Number.isFinite 10 = true) as Hprice by constructs.
  repeat (split; [assumption|]).
  exact (apply_zero_count no_numeric_string _ _ _ _ 10
           H Hfinite (fun _ => Hnonzero) Hprice).
Defined.

(** [construction_fails_iff_rejected] on a missing field, on an unknown
    type and on an extra field. *)
Lemma construction_at_examples :
  (* a missing field: rejected, and the message names the SKU and fields *)
  rejected "both" three_for_two
  /\ (exists e,
         new_PricingRule "SKU-7" "both" three_for_two = Throw e
         /\ identifies (message e) "SKU-7"
              ["quantity"; "discountedQuantity"; "bulkPrice"])
  (* an unknown type *)
  /\ new_PricingRule "SKU-7" "bogus" three_for_two
     = Throw (Error "Unknown rule type: bogus")
  (* an irrelevant extra field does not matter *)
  /\ new_PricingRule "SKU-7" "discount" three_for_two_bulk
     = Normal (mkPricingRule "SKU-7" "discount" three_for_two_bulk).
Proof.
  destruct (construction_fails_iff_rejected "SKU-7" "both" three_for_two)
    as ([Hfails Hrejected] & Hmessage & _ & _).
  destruct (construction_fails_iff_rejected "SKU-7" "bogus" three_for_two)
    as (_ & _ & Hunknown & _).
  destruct (construction_fails_iff_rejected "SKU-7" "discount" three_for_two)
    as (_ & _ & _ & Hextra).
  assert (rejected "both" three_for_two) as Hrej.
  { apply Hfails. eexists. constructs. }
  split; [exact Hrej|]. split; [| split].
  - destruct (Hrejected Hrej) as [e He]. exists e. split; [exact He|].
    exact (Hmessage e _ He eq_refl).
  - exact (Hunknown eq_refl).
  - apply (Hextra ["quantity"; "discountedQuantity"]); [reflexivity | |].
    + repeat constructor; eexists; constructs.
    + intros name Hname. unfold three_for_two_bulk.
      apply lookup_insert_ne. intros <-.
      rewrite !elem_of_cons, elem_of_nil in Hname.
      destruct Hname as [|[|[]]]; discriminate.
Defined.

(** [discount_constructed_iff_numbers] on "3 for 2". *)
Lemma discount_constructed_three_for_two :
  new_PricingRule "A" "discount" three_for_two
  = Normal (mkPricingRule "A" "discount" three_for_two)
  /\ has_number three_for_two "quantity"
  /\ has_number three_for_two "discountedQuantity".
Proof.
  destruct (discount_constructed_iff_numbers "A" three_for_two) as [Hto Hfrom].
  assert (has_number three_for_two "quantity"
          /\ has_number three_for_two "discountedQuantity") as Hnum
    by (split; eexists; constructs).
  split; [exact (Hfrom Hnum) | exact Hnum].
Defined.

(** *** Where the specification says more than the code does *)

(** C4.  The error for an unrecognized type carries the type and nothing
    else: the SKU identifier is not in the message. *)
Lemma unknown_type_error_omits_sku :
  new_PricingRule "SKU-7" "bogus" three_for_two
  = Throw (Error "Unknown rule type: bogus")
  /\ contains "SKU-7" "Unknown rule type: bogus" = false
  /\ ~ (forall sku ty d e,
           new_PricingRule sku ty d = Throw e ->
           contains sku (message e) = true).
Proof.
  assert (new_PricingRule "SKU-7" "bogus" three_for_two
          = Throw (Error "Unknown rule type: bogus")) as H by constructs.
  split; [exact H|]. split; [constructs|].
  intros Hall. specialize (Hall _ _ _ _ H). vm_compute in Hall.
  discriminate Hall.
Qed.

(** C6.  A 'discount' rule is constructed with a group size of zero,
    with a negative one, and with a fractional one. *)
Lemma discount_accepts_any_quantity :
  new_PricingRule "A" "discount" zero_group
  = Normal (mkPricingRule "A" "discount" zero_group)
  /\ new_PricingRule "A" "discount"
       (<[ "quantity" := VNumber (-1) ]> zero_group)
     = Normal (mkPricingRule "A" "discount"
                 (<[ "quantity" := VNumber (-1) ]> zero_group))
  /\ new_PricingRule "A" "discount"
       (<[ "quantity" := VNumber 1.5 ]> zero_group)
     = Normal (mkPricingRule "A" "discount"
                 (<[ "quantity" := VNumber 1.5 ]> zero_group))
  /\ Number.isInteger 1.5 = false.
Proof. repeat split; constructs. Qed.

(** C7.  With a group size of zero the rule is constructed, and an empty
    purchase is charged NaN, which is not zero. *)
Lemma apply_zero_count_zero_group :
  new_PricingRule "A" "discount" zero_group
  = Normal (mkPricingRule "A" "discount" zero_group)
  /\ apply no_numeric_string 0 10 (mkPricingRule "A" "discount" zero_group)
     = (Normal nan, mkPricingRule "A" "discount" zero_group)
  /\ (nan =? 0) = false.
Proof. repeat split; constructs. Qed.

End Instances.

(** ** Further facts about numbers *)

Section MoreNumberFacts.

Local Open Scope float_scope.

Lemma Prim2SF_nan : Prim2SF nan = S754_nan.
Proof. reflexivity. Qed.

Lemma is_zero_inv x : is_zero x = true -> exists s, Prim2SF x = S754_zero s.
Proof.
  unfold is_zero. rewrite FloatAxioms.eqb_spec, Prim2SF_zero.
  destruct (Prim2SF x) as [s|s| |s m e]; try discriminate; eauto;
    destruct s; discriminate.
Qed.

(** NaN is absorbing for the operations of the price computation. *)

Lemma div_nan_l y : nan / y = nan.
Proof.
  apply Prim2SF_inj. rewrite div_spec, Prim2SF_nan. reflexivity.
Qed.

Lemma mul_nan_l y : nan * y = nan.
Proof.
  apply Prim2SF_inj. rewrite mul_spec, Prim2SF_nan. reflexivity.
Qed.

Lemma add_nan_l y : nan + y = nan.
Proof.
  apply Prim2SF_inj. rewrite add_spec, Prim2SF_nan. reflexivity.
Qed.

Lemma add_nan_r x : x + nan = nan.
Proof.
  apply Prim2SF_inj. rewrite add_spec, Prim2SF_nan.
  destruct (Prim2SF x) as [s|s| |s m e]; reflexivity.
Qed.

Lemma floor_nan : Number.floor nan = nan.
Proof. reflexivity. Qed.

Lemma rem_nan_l d : Number.rem nan d = nan.
Proof. unfold Number.rem. rewrite Prim2SF_nan. reflexivity. Qed.

(** A remainder by zero is NaN, whatever the dividend. *)
Lemma rem_by_zero n d s : Prim2SF d = S754_zero s -> Number.rem n d = nan.
Proof.
  intros Hd. unfold Number.rem. rewrite Hd.
  destruct (Prim2SF n) as [sn|sn| |sn mn en]; reflexivity.
Qed.

(** NaN is greater than nothing, and nothing is greater than NaN. *)

Lemma gt_nan_l y : Number.gt nan y = false.
Proof.
  unfold Number.gt. rewrite FloatAxioms.ltb_spec, Prim2SF_nan.
  destruct (Prim2SF y) as [s|s| |s m e]; reflexivity.
Qed.

Lemma gt_nan_r x : Number.gt x nan = false.
Proof.
  unfold Number.gt. rewrite FloatAxioms.ltb_spec, Prim2SF_nan. reflexivity.
Qed.

Lemma SFcompare_antisym x y :
  SFcompare y x = option_map CompOpp (SFcompare x y).
Proof.
  destruct x as [sx|sx| |sx mx ex], y as [sy|sy| |sy my ey];
    try destruct sx; try destruct sy; try reflexivity; cbn;
    rewrite (Z.compare_antisym ex ey);
    destruct (ex ?= ey)%Z; cbn; try reflexivity;
    rewrite (Pos.compare_cont_antisym mx my Eq); cbn;
    try rewrite CompOpp_involutive; reflexivity.
Qed.

(** A number at or below another is not greater than it. *)
Lemma leb_not_gt x y : (x <=? y) = true -> Number.gt x y = false.
Proof.
  unfold Number.gt. rewrite FloatAxioms.leb_spec, FloatAxioms.ltb_spec.
  unfold SFleb, SFltb. rewrite (SFcompare_antisym (Prim2SF x) (Prim2SF y)).
  destruct (SFcompare (Prim2SF x) (Prim2SF y)) as [[]|]; cbn; congruence.
Qed.

End MoreNumberFacts.

(** ** Further properties of construction *)

Section MoreConstruction.

Implicit Types (d : gmap string value) (r : PricingRule).

Lemma constructed_iff_fields sku ty d :
  new_PricingRule sku ty d = Normal (mkPricingRule sku ty d)
  <-> exists names,
        required_fields ty = Some names /\ Forall (has_number d) names.
Proof.
  rewrite new_PricingRule_Normal. unfold valid. cbn [type definition].
  split; [intros [_ H]; exact H | intros H; split; [reflexivity | exact H]].
Qed.

(** X1. A definition is accepted for a combined rule exactly when it is
    accepted both for a multi-buy rule and for a bulk-price rule. *)
Theorem both_accepted_iff_discount_and_reducedPrice sku d :
  new_PricingRule sku "both" d = Normal (mkPricingRule sku "both" d)
  <-> new_PricingRule sku "discount" d
      = Normal (mkPricingRule sku "discount" d)
      /\ new_PricingRule sku "reducedPrice" d
         = Normal (mkPricingRule sku "reducedPrice" d).
Proof.
  rewrite !constructed_iff_fields. split.
  - intros (names & [= <-] & Hall).
    inversion_clear Hall as [|? ? Hq Hall'].
    inversion_clear Hall' as [|? ? Hdq Hall''].
    inversion_clear Hall'' as [|? ? Hb _].
    split; (eexists; split; [reflexivity|]); repeat constructor; assumption.
  - intros [(n1 & [= <-] & H1) (n2 & [= <-] & H2)].
    inversion_clear H1 as [|? ? Hq H1']. inversion_clear H1' as [|? ? Hdq _].
    inversion_clear H2 as [|? ? _ H2']. inversion_clear H2' as [|? ? Hb _].
    eexists; split; [reflexivity|]. repeat constructor; assumption.
Qed.

(** X2. The SKU identifier takes no part in the validation: a definition
    is accepted under one identifier exactly when it is accepted under
    any other, the empty one included. *)
Theorem acceptance_ignores_skuId sku sku' ty d :
  new_PricingRule sku ty d = Normal (mkPricingRule sku ty d)
  <-> new_PricingRule sku' ty d = Normal (mkPricingRule sku' ty d).
Proof. rewrite !constructed_iff_fields. reflexivity. Qed.

Ltac run_method :=
  unfold mbind, method_bind, mret, method_ret, this_type, this_skuId,
    this_definition, throw, lift; cbv beta iota zeta.

(** The error of a failed validation is a function of the SKU identifier
    and the type alone. *)
Lemma validateDefinition_Throw_same r r' e e' :
  skuId r = skuId r' -> type r = type r' ->
  fst (validateDefinition r) = Throw e ->
  fst (validateDefinition r') = Throw e' ->
  e = e'.
Proof.
  destruct r as [sku ty d], r' as [sku' ty' d']. cbn [skuId type].
  intros <- <-. unfold validateDefinition. run_method. cbn [skuId type].
  repeat match goal with
    | |- context [if ?b then _ else _] => destruct b
    end; cbn [fst skuId]; congruence.
Qed.

(** X3. The error does not single out the offending field: two
    definitions rejected for the same SKU and type are rejected with the
    same error, whichever of their fields are missing or not numbers. *)
Theorem rejection_error_ignores_definition sku ty d d' e e' :
  new_PricingRule sku ty d = Throw e ->
  new_PricingRule sku ty d' = Throw e' ->
  e = e'.
Proof.
  unfold new_PricingRule.
  pose proof (validateDefinition_Throw_same
                (mkPricingRule sku ty d) (mkPricingRule sku ty d') e e'
                eq_refl eq_refl) as H.
  destruct (validateDefinition (mkPricingRule sku ty d)) as [[[]|e1] ?];
    [discriminate|].
  destruct (validateDefinition (mkPricingRule sku ty d')) as [[[]|e2] ?];
    [discriminate|].
  intros [= ->] [= ->]. now apply H.
Qed.

End MoreConstruction.

(** ** Further properties of [apply] *)

Section MoreApply.

Variable StringToNumber : string -> float.

Local Open Scope float_scope.

Implicit Types (d : gmap string value) (r : PricingRule).
Implicit Types (count price q dq b : float).

Ltac fields H :=
  let Hall := fresh "Hall" in
  let Hr := fresh "Hr" in
  eapply constructed_fields in H as [Hr Hall]; [|reflexivity];
  try subst; try clear Hr;
  repeat (let Hn := fresh "Hn" in
          let Hrest := fresh "Hrest" in
          inversion_clear Hall as [|? ? Hn Hrest]; rename Hrest into Hall);
  clear Hall.

Ltac by_type ty Hreq :=
  unfold required_fields in Hreq;
  let E1 := fresh "E" in
  let E2 := fresh "E" in
  let E3 := fresh "E" in
  destruct (String.eqb ty "discount") eqn:E1;
  [ apply String.eqb_eq in E1
  | destruct (String.eqb ty "reducedPrice") eqn:E2;
    [ apply String.eqb_eq in E2
    | destruct (String.eqb ty "both") eqn:E3;
      [ apply String.eqb_eq in E3 | discriminate Hreq ] ] ];
  subst ty; injection Hreq as <-.

(** X4. The total depends on the type and on the fields the type
    requires, and on nothing else: two constructed rules of the same
    type whose definitions agree on the required fields charge the same,
    whatever their SKU identifiers and their other fields. *)
Theorem apply_reads_required_fields_only
    sku sku' ty d d' r r' names count price :
  new_PricingRule sku ty d = Normal r ->
  new_PricingRule sku' ty d' = Normal r' ->
  required_fields ty = Some names ->
  (forall name, name ∈ names -> d' !! name = d !! name) ->
  fst (apply StringToNumber count price r')
  = fst (apply StringToNumber count price r).
Proof.
  intros H H' Hreq Hagree. by_type ty Hreq; fields H; fields H';
    repeat match goal with
      | Hn : has_number d _ |- _ => destruct Hn as [? Hn]
      | Hn : has_number d' _ |- _ => clear Hn
      end.
  - rewrite !apply_discount_type by reflexivity.
    erewrite (applyDiscount_numbers _ (mkPricingRule sku _ d))
      by eassumption.
    erewrite (applyDiscount_numbers _ (mkPricingRule sku' _ d'))
      by (cbn [definition]; rewrite Hagree;
          [eassumption | rewrite !elem_of_cons; auto]).
    reflexivity.
  - rewrite !apply_reducedPrice_type by reflexivity.
    erewrite (applyReducedPrice_numbers _ (mkPricingRule sku _ d))
      by eassumption.
    erewrite (applyReducedPrice_numbers _ (mkPricingRule sku' _ d'))
      by (cbn [definition]; rewrite Hagree;
          [eassumption | rewrite !elem_of_cons; auto]).
    reflexivity.
  - rewrite !apply_both_type by reflexivity.
    erewrite (applyBoth_numbers _ (mkPricingRule sku _ d))
      by eassumption.
    erewrite (applyBoth_numbers _ (mkPricingRule sku' _ d'))
      by (cbn [definition]; rewrite Hagree;
          [eassumption | rewrite !elem_of_cons; auto]).
    reflexivity.
Qed.

(** X5. A multi-buy or combined rule whose group size is zero is
    constructed, and then charges NaN for every count and price: the
    remainder by zero is NaN and nothing recovers from it. *)
Theorem apply_zero_quantity_is_nan sku ty d r q count price :
  ty = "discount" \/ ty = "both" ->
  new_PricingRule sku ty d = Normal r ->
  d !! "quantity" = Some (VNumber q) ->
  is_zero q = true ->
  apply StringToNumber count price r = (Normal nan, r).
Proof.
  intros Hty H Hq Hzero. apply is_zero_inv in Hzero as [s Hs].
  destruct Hty as [-> | ->]; fields H;
    repeat match goal with
      | Hn : has_number d "quantity" |- _ => clear Hn
      | Hn : has_number d _ |- _ => destruct Hn as [? Hn]
      end.
  - rewrite apply_discount_type by reflexivity.
    erewrite applyDiscount_numbers by eassumption.
    rewrite (rem_by_zero count q s Hs), add_nan_r, mul_nan_l. reflexivity.
  - rewrite apply_both_type by reflexivity.
    erewrite applyBoth_numbers by eassumption. cbv zeta.
    rewrite (rem_by_zero count q s Hs), add_nan_r, gt_nan_l, mul_nan_l.
    reflexivity.
Qed.

(** X6. A NaN count is not rejected: every constructed rule charges NaN
    for it. *)
Theorem apply_nan_count sku ty d r price :
  new_PricingRule sku ty d = Normal r ->
  apply StringToNumber nan price r = (Normal nan, r).
Proof.
  intros H. pose proof H as Hv.
  apply new_PricingRule_Normal in Hv as [_ (names & Hreq & _)].
  apply new_PricingRule_Normal in H as [-> Hv]. cbn [type] in Hreq.
  assert (new_PricingRule sku ty d = Normal (mkPricingRule sku ty d)) as H
    by (apply new_PricingRule_Normal; split; [reflexivity | exact Hv]).
  clear Hv. by_type ty Hreq; fields H;
    repeat match goal with
      | Hn : has_number d _ |- _ => destruct Hn as [? Hn]
      end.
  - rewrite apply_discount_type by reflexivity.
    erewrite applyDiscount_numbers by eassumption.
    rewrite div_nan_l, floor_nan, rem_nan_l, ?mul_nan_l, ?add_nan_l,
      ?mul_nan_l.
    reflexivity.
  - rewrite apply_reducedPrice_type by reflexivity.
    erewrite applyReducedPrice_numbers by eassumption.
    rewrite gt_nan_l, mul_nan_l. reflexivity.
  - rewrite apply_both_type by reflexivity.
    erewrite applyBoth_numbers by eassumption. cbv zeta.
    rewrite div_nan_l, floor_nan, rem_nan_l, ?mul_nan_l, ?add_nan_l,
      gt_nan_l, ?mul_nan_l.
    reflexivity.
Qed.

(** X7. A bulk-price rule charges the regular price for a count at or
    below the threshold. *)
Theorem reducedPrice_regular_at_or_below sku d r q count price :
  new_PricingRule sku "reducedPrice" d = Normal r ->
  d !! "quantity" = Some (VNumber q) ->
  (count <=? q) = true ->
  apply StringToNumber count price r = (Normal (count * price), r).
Proof.
  intros H Hq Hle. fields H.
  repeat match goal with
    | Hn : has_number d "quantity" |- _ => clear Hn
    | Hn : has_number d _ |- _ => destruct Hn as [? Hn]
    end.
  rewrite apply_reducedPrice_type by reflexivity.
  erewrite applyReducedPrice_numbers by eassumption.
  now rewrite (leb_not_gt count q Hle).
Qed.

(** X8. A bulk-price rule whose threshold is NaN is constructed, and
    never applies the bulk price. *)
Theorem reducedPrice_nan_threshold_never_applies sku d r count price :
  new_PricingRule sku "reducedPrice" d = Normal r ->
  d !! "quantity" = Some (VNumber nan) ->
  apply StringToNumber count price r = (Normal (count * price), r).
Proof.
  intros H Hq. fields H.
  repeat match goal with
    | Hn : has_number d "quantity" |- _ => clear Hn
    | Hn : has_number d _ |- _ => destruct Hn as [? Hn]
    end.
  rewrite apply_reducedPrice_type by reflexivity.
  erewrite applyReducedPrice_numbers by eassumption.
  now rewrite gt_nan_r.
Qed.

(** X9. While the billed units stay at or below the threshold, a
    combined rule charges what the multi-buy rule with the same
    definition charges. *)
Theorem both_is_discount_at_or_below sku d rb rd q dq count price :
  new_PricingRule sku "both" d = Normal rb ->
  new_PricingRule sku "discount" d = Normal rd ->
  d !! "quantity" = Some (VNumber q) ->
  d !! "discountedQuantity" = Some (VNumber dq) ->
  (Number.floor (count / q) * dq + Number.rem count q <=? q) = true ->
  fst (apply StringToNumber count price rb)
  = fst (apply StringToNumber count price rd).
Proof.
  intros Hb Hd Hq Hdq Hle. fields Hb. fields Hd.
  repeat match goal with
    | Hn : has_number d "quantity" |- _ => clear Hn
    | Hn : has_number d "discountedQuantity" |- _ => clear Hn
    | Hn : has_number d _ |- _ => destruct Hn as [? Hn]
    end.
  rewrite apply_both_type, apply_discount_type by reflexivity.
  erewrite applyBoth_numbers, applyDiscount_numbers by eassumption.
  cbv zeta. now rewrite (leb_not_gt _ q Hle).
Qed.

Lemma arith_Throw op x v e :
  Js.arith StringToNumber op x v = Throw e ->
  e = TypeError "Cannot mix BigInt and other types, use explicit conversions"
  /\ exists z, v = VBigInt z.
Proof.
  unfold Js.arith. destruct v; cbn; intros [= <-]. eauto.
Qed.

Lemma gt_never_throws x v e : Js.gt StringToNumber x v <> Throw e.
Proof. unfold Js.gt. destruct v; discriminate. Qed.

Lemma field_BigInt r name z :
  default VUndefined (definition r !! name) = VBigInt z ->
  definition r !! name = Some (VBigInt z).
Proof. destruct (definition r !! name); cbn; congruence. Qed.

(** Run a method body one operation at a time; a throwing operation
    closes the goal. *)
Ltac throwing :=
  unfold mbind, method_bind, mret, method_ret, this_definition, lift,
    Js.div, Js.mul, Js.rem;
  cbv beta iota zeta;
  repeat match goal with
    | |- context [Js.arith StringToNumber ?op ?x ?v] =>
        let E := fresh "E" in
        let z := fresh "z" in
        destruct (Js.arith StringToNumber op x v) eqn:E;
        [| apply arith_Throw in E as [-> [z E]]; apply field_BigInt in E;
           cbn [fst]; intros [= <-]; split; [reflexivity | eauto] ]
    | |- context [Js.gt StringToNumber ?x ?v] =>
        let E := fresh "E" in
        destruct (Js.gt StringToNumber x v) as [[]|] eqn:E;
        [ | | destruct (gt_never_throws _ _ _ E) ]
    end;
  try (cbn [fst]; discriminate).

(** X10. On any instance, validated or not, [apply] throws nothing but
    the TypeError of mixing a BigInt with a number, and only when a
    field of the definition holds a BigInt. *)
Theorem apply_throws_only_on_BigInt r count price e :
  fst (apply StringToNumber count price r) = Throw e ->
  e = TypeError "Cannot mix BigInt and other types, use explicit conversions"
  /\ exists name z, definition r !! name = Some (VBigInt z).
Proof.
  unfold apply, mbind, method_bind, this_type. cbv beta iota zeta.
  destruct (String.eqb (type r) "discount");
    [| destruct (String.eqb (type r) "reducedPrice");
       [| destruct (String.eqb (type r) "both")]].
  - unfold applyDiscount. throwing.
  - unfold applyReducedPrice. throwing.
  - unfold applyBoth. throwing.
  - discriminate.
Qed.

(** The check of the small range, by evaluation. *)
Lemma agrees_on_small_range : agrees_upto 12 13 101 = true.
Proof. vm_compute. reflexivity. Qed.

Lemma agrees_upto_spec (Q DQ C q dq c : nat) :
  agrees_upto Q DQ C = true ->
  (q < Q)%nat -> (dq < DQ)%nat -> (c < C)%nat ->
  billed_agrees (S q) dq c = true.
Proof.
  unfold agrees_upto. intros H Hq Hdq Hc.
  pose proof (proj1 (forallb_forall _ _) H q) as H1. cbv beta in H1.
  pose proof (proj1 (forallb_forall _ _) (H1 ltac:(apply in_seq; lia)) dq)
    as H2. cbv beta in H2.
  exact (proj1 (forallb_forall _ _) (H2 ltac:(apply in_seq; lia)) c
           ltac:(apply in_seq; lia)).
Qed.

Lemma billed_agrees_small (q dq c : Z) :
  (1 <= q <= 12)%Z -> (0 <= dq <= 12)%Z -> (0 <= c <= 100)%Z ->
  (Number.floor (Number.of_Z c / Number.of_Z q) * Number.of_Z dq
   + Number.rem (Number.of_Z c) (Number.of_Z q)
   = Number.of_Z (billed_Z q dq c))
  /\ Number.gt (Number.of_Z (billed_Z q dq c)) (Number.of_Z q)
     = (q <? billed_Z q dq c)%Z.
Proof.
  intros Hq Hdq Hc.
  pose proof (agrees_upto_spec 12 13 101
                (Z.to_nat (q - 1)) (Z.to_nat dq) (Z.to_nat c)
                agrees_on_small_range
                ltac:(lia) ltac:(lia) ltac:(lia)) as H.
  unfold billed_agrees in H. cbv zeta in H.
  replace (S (Z.to_nat (q - 1))) with (Z.to_nat q) in H by lia.
  rewrite !Z2Nat.id in H by lia.
  rewrite andb_true_iff, FloatAxioms.Leibniz.eqb_spec in H.
  destruct H as [Hbilled Hgt].
  split; [exact Hbilled | now apply Bool.eqb_prop].
Qed.

(** X11. For group sizes from 1 to 12, charged sizes from 0 to 12 and
    counts from 0 to 100, a multi-buy rule charges the price times the
    billed units of integer arithmetic, [count / quantity *
    discountedQuantity + count mod quantity]. *)
Theorem discount_agrees_with_integers sku d r (q dq c : Z) price :
  new_PricingRule sku "discount" d = Normal r ->
  d !! "quantity" = Some (VNumber (Number.of_Z q)) ->
  d !! "discountedQuantity" = Some (VNumber (Number.of_Z dq)) ->
  (1 <= q <= 12)%Z -> (0 <= dq <= 12)%Z -> (0 <= c <= 100)%Z ->
  apply StringToNumber (Number.of_Z c) price r
  = (Normal (Number.of_Z (billed_Z q dq c) * price), r).
Proof.
  intros H Hq Hdq Bq Bdq Bc. fields H.
  repeat match goal with Hn : has_number d _ |- _ => clear Hn end.
  rewrite apply_discount_type by reflexivity.
  erewrite applyDiscount_numbers by eassumption.
  destruct (billed_agrees_small q dq c Bq Bdq Bc) as [-> _]. reflexivity.
Qed.

(** X12. On the same range a combined rule compares the integer billed
    units with the group size, and charges them at the bulk price above
    it and at the regular price otherwise. *)
Theorem both_agrees_with_integers sku d r (q dq c : Z) b price :
  new_PricingRule sku "both" d = Normal r ->
  d !! "quantity" = Some (VNumber (Number.of_Z q)) ->
  d !! "discountedQuantity" = Some (VNumber (Number.of_Z dq)) ->
  d !! "bulkPrice" = Some (VNumber b) ->
  (1 <= q <= 12)%Z -> (0 <= dq <= 12)%Z -> (0 <= c <= 100)%Z ->
  apply StringToNumber (Number.of_Z c) price r
  = (Normal (if (q <? billed_Z q dq c)%Z
             then Number.of_Z (billed_Z q dq c) * b
             else Number.of_Z (billed_Z q dq c) * price), r).
Proof.
  intros H Hq Hdq Hb Bq Bdq Bc. fields H.
  repeat match goal with Hn : has_number d _ |- _ => clear Hn end.
  rewrite apply_both_type by reflexivity.
  erewrite applyBoth_numbers by eassumption. cbv zeta.
  destruct (billed_agrees_small q dq c Bq Bdq Bc) as [-> ->]. reflexivity.
Qed.

End MoreApply.

(** ** The further properties at concrete rules *)

Section MoreInstances.

Local Open Scope float_scope.

Ltac constructs := vm_compute; reflexivity.

(** [rejection_error_ignores_definition]: a combined rule lacking its
    bulk price and one lacking its charged size. *)
Lemma rejection_error_at_examples :
  exists e e',
    new_PricingRule "A" "both" three_for_two = Throw e
    /\ new_PricingRule "A" "both" bulk_over_five = Throw e'
    /\ e = e'.
Proof.
  eexists _, _. split; [constructs|]. split; [constructs|].
  apply (rejection_error_ignores_definition
           "A" "both" three_for_two bulk_over_five); constructs.
Defined.

(** [apply_reads_required_fields_only]: "3 for 2" with and without a
    bulk price, under two SKU identifiers. *)
Lemma apply_ignores_bulkPrice_of_discount :
  new_PricingRule "A" "discount" three_for_two
  = Normal (mkPricingRule "A" "discount" three_for_two)
  /\ new_PricingRule "B" "discount" three_for_two_bulk
     = Normal (mkPricingRule "B" "discount" three_for_two_bulk)
  /\ fst (apply no_numeric_string 7 10
            (mkPricingRule "B" "discount" three_for_two_bulk))
     = fst (apply no_numeric_string 7 10
              (mkPricingRule "A" "discount" three_for_two)).
Proof.
  assert (new_PricingRule "A" "discount" three_for_two
          = Normal (mkPricingRule "A" "discount" three_for_two)) as H
    by constructs.
  assert (new_PricingRule "B" "discount" three_for_two_bulk
          = Normal (mkPricingRule "B" "discount" three_for_two_bulk)) as H'
    by constructs.
  split; [exact H|]. split; [exact H'|].
  apply (apply_reads_required_fields_only no_numeric_string
           "A" "B" "discount" three_for_two three_for_two_bulk _ _
           ["quantity"; "discountedQuantity"] 7 10 H H' eq_refl).
  intros name Hname. unfold three_for_two_bulk.
  apply lookup_insert_ne. intros <-.
  rewrite !elem_of_cons, elem_of_nil in Hname.
  destruct Hname as [|[|[]]]; discriminate.
Defined.

(** [apply_zero_quantity_is_nan]: seven units under a group size of
    zero. *)
Lemma apply_zero_group_at_seven :
  new_PricingRule "A" "discount" zero_group
  = Normal (mkPricingRule "A" "discount" zero_group)
  /\ zero_group !! "quantity" = Some (VNumber 0)
  /\ is_zero 0 = true
  /\ apply no_numeric_string 7 10 (mkPricingRule "A" "discount" zero_group)
     = (Normal nan, mkPricingRule "A" "discount" zero_group).
Proof.
  assert (new_PricingRule "A" "discount" zero_group
          = Normal (mkPricingRule "A" "discount" zero_group)) as H
    by constructs.
  assert (zero_group !! "quantity" = Some (VNumber 0)) as Hq by constructs.
  assert (is_zero 0 = true) as Hz by constructs.
  repeat (split; [assumption|]).
  exact (apply_zero_quantity_is_nan no_numeric_string
           "A" "discount" zero_group _ 0 7 10 (or_introl eq_refl) H Hq Hz).
Defined.

(** [apply_nan_count] on "3 for 2, then 5 a unit". *)
Lemma apply_nan_count_three_for_two_bulk :
  new_PricingRule "A" "both" three_for_two_bulk
  = Normal (mkPricingRule "A" "both" three_for_two_bulk)
  /\ apply no_numeric_string nan 10
       (mkPricingRule "A" "both" three_for_two_bulk)
     = (Normal nan, mkPricingRule "A" "both" three_for_two_bulk).
Proof.
  assert (new_PricingRule "A" "both" three_for_two_bulk
          = Normal (mkPricingRule "A" "both" three_for_two_bulk)) as H
    by constructs.
  split; [exact H|].
  exact (apply_nan_count no_numeric_string _ _ _ _ 10 H).
Defined.

(** [reducedPrice_regular_at_or_below]: five units at a threshold of
    five. *)
Lemma reducedPrice_regular_at_five :
  new_PricingRule "A" "reducedPrice" bulk_over_five
  = Normal (mkPricingRule "A" "reducedPrice" bulk_over_five)
  /\ bulk_over_five !! "quantity" = Some (VNumber 5)
  /\ (5 <=? 5) = true
  /\ apply no_numeric_string 5 10
       (mkPricingRule "A" "reducedPrice" bulk_over_five)
     = (Normal 50, mkPricingRule "A" "reducedPrice" bulk_over_five).
Proof.
  assert (new_PricingRule "A" "reducedPrice" bulk_over_five
          = Normal (mkPricingRule "A" "reducedPrice" bulk_over_five)) as H
    by constructs.
  assert (bulk_over_five !! "quantity" = Some (VNumber 5)) as Hq
    by constructs.
  assert ((5 <=? 5) = true) as Hle by constructs.
  repeat (split; [assumption|]).
  exact (reducedPrice_regular_at_or_below no_numeric_string
           "A" bulk_over_five _ 5 5 10 H Hq Hle).
Defined.

(** [reducedPrice_nan_threshold_never_applies]: a thousand units. *)
Lemma nan_threshold_at_thousand :
  new_PricingRule "A" "reducedPrice" nan_threshold
  = Normal (mkPricingRule "A" "reducedPrice" nan_threshold)
  /\ nan_threshold !! "quantity" = Some (VNumber nan)
  /\ apply no_numeric_string 1000 10
       (mkPricingRule "A" "reducedPrice" nan_threshold)
     = (Normal 10000, mkPricingRule "A" "reducedPrice" nan_threshold).
Proof.
  assert (new_PricingRule "A" "reducedPrice" nan_threshold
          = Normal (mkPricingRule "A" "reducedPrice" nan_threshold)) as H
    by constructs.
  assert (nan_threshold !! "quantity" = Some (VNumber nan)) as Hq
    by constructs.
  repeat (split; [assumption|]).
  exact (reducedPrice_nan_threshold_never_applies no_numeric_string
           "A" nan_threshold _ 1000 10 H Hq).
Defined.

(** [both_is_discount_at_or_below]: four units bill as three, which is
    the threshold. *)
Lemma both_is_discount_at_four :
  new_PricingRule "A" "both" three_for_two_bulk
  = Normal (mkPricingRule "A" "both" three_for_two_bulk)
  /\ new_PricingRule "A" "discount" three_for_two_bulk
     = Normal (mkPricingRule "A" "discount" three_for_two_bulk)
  /\ (Number.floor (4 / 3) * 2 + Number.rem 4 3 <=? 3) = true
  /\ fst (apply no_numeric_string 4 10
            (mkPricingRule "A" "both" three_for_two_bulk))
     = fst (apply no_numeric_string 4 10
              (mkPricingRule "A" "discount" three_for_two_bulk)).
Proof.
  assert (new_PricingRule "A" "both" three_for_two_bulk
          = Normal (mkPricingRule "A" "both" three_for_two_bulk)) as Hb
    by constructs.
  assert (new_PricingRule "A" "discount" three_for_two_bulk
          = Normal (mkPricingRule "A" "discount" three_for_two_bulk)) as Hd
    by constructs.
  assert ((Number.floor (4 / 3) * 2 + Number.rem 4 3 <=? 3) = true) as Hle
    by constructs.
  repeat (split; [assumption|]).
  apply (both_is_discount_at_or_below no_numeric_string
           "A" three_for_two_bulk _ _ 3 2 4 10 Hb Hd); constructs.
Defined.

(** [apply_throws_only_on_BigInt]: an instance that never went through
    the constructor. *)
Lemma apply_throws_on_bigint_group :
  fst (apply no_numeric_string 7 10
         (mkPricingRule "A" "discount" bigint_group))
  = Throw (TypeError
             "Cannot mix BigInt and other types, use explicit conversions")
  /\ exists name z, bigint_group !! name = Some (VBigInt z).
Proof.
  assert (fst (apply no_numeric_string 7 10
                 (mkPricingRule "A" "discount" bigint_group))
          = Throw (TypeError
             "Cannot mix BigInt and other types, use explicit conversions"))
    as H by constructs.
  split; [exact H|].
  exact (proj2 (apply_throws_only_on_BigInt no_numeric_string _ 7 10 _ H)).
Defined.

(** [discount_agrees_with_integers]: seven units of "3 for 2". *)
Lemma discount_agrees_at_seven :
  new_PricingRule "A" "discount" three_for_two
  = Normal (mkPricingRule "A" "discount" three_for_two)
  /\ three_for_two !! "quantity" = Some (VNumber (Number.of_Z 3))
  /\ three_for_two !! "discountedQuantity" = Some (VNumber (Number.of_Z 2))
  /\ apply no_numeric_string (Number.of_Z 7) 10
       (mkPricingRule "A" "discount" three_for_two)
     = (Normal (Number.of_Z (billed_Z 3 2 7) * 10),
        mkPricingRule "A" "discount" three_for_two).
Proof.
  assert (new_PricingRule "A" "discount" three_for_two
          = Normal (mkPricingRule "A" "discount" three_for_two)) as H
    by constructs.
  assert (three_for_two !! "quantity" = Some (VNumber (Number.of_Z 3)))
    as Hq by constructs.
  assert (three_for_two !! "discountedQuantity"
          = Some (VNumber (Number.of_Z 2))) as Hdq by constructs.
  repeat (split; [assumption|]).
  apply (discount_agrees_with_integers no_numeric_string
           "A" three_for_two _ 3 2 7 10 H Hq Hdq); lia.
Defined.

(** [both_agrees_with_integers]: ten units of "3 for 2, then 5 a
    unit". *)
Lemma both_agrees_at_ten :
  new_PricingRule "A" "both" three_for_two_bulk
  = Normal (mkPricingRule "A" "both" three_for_two_bulk)
  /\ apply no_numeric_string (Number.of_Z 10) 10
       (mkPricingRule "A" "both" three_for_two_bulk)
     = (Normal (Number.of_Z (billed_Z 3 2 10) * 5),
        mkPricingRule "A" "both" three_for_two_bulk).
Proof.
  assert (new_PricingRule "A" "both" three_for_two_bulk
          = Normal (mkPricingRule "A" "both" three_for_two_bulk)) as H
    by constructs.
  split; [exact H|].
  apply (both_agrees_with_integers no_numeric_string
           "A" three_for_two_bulk _ 3 2 10 5 10 H);
    (constructs || lia).
Defined.

End MoreInstances.

(** ** The instance in the heap *)

Section HeapFacts.

Implicit Types (h : heap) (r d : ref) (this : PricingRule).

Lemma this_of_Some h r this :
  this_of h r = Some this <->
  exists i,
    instances h !! r = Some i
    /\ objects h !! i_definition i = Some (definition this)
    /\ i_skuId i = skuId this /\ i_type i = type this.
Proof.
  unfold this_of. split.
  - destruct (instances h !! r) as [i|]; [|discriminate]. cbn.
    destruct (objects h !! i_definition i) as [dm|] eqn:Hd; [|discriminate].
    cbn. intros [= <-]. exists i. cbn. auto.
  - intros (i & -> & Hd & Hs & Ht). cbn. rewrite Hd. cbn.
    destruct this; cbn in *. now subst.
Qed.

(** Storing back what was read changes nothing. *)
Lemma store_this_id h r this :
  this_of h r = Some this -> store_this h r this = h.
Proof.
  intros (i & Hi & Hd & Hs & Ht)%this_of_Some. unfold store_this.
  rewrite Hi, <- Hs, <- Ht.
  destruct h as [objs insts], i as [s t d]; cbn in *.
  f_equal; now apply insert_id.
Qed.

(** A method that hands [this] back as it found it leaves the heap as it
    found it. *)
Lemma invoke_reader {A : Type} (m : method A) :
  (forall this, snd (m this) = this) ->
  forall r h c h',
    invoke m r h = Some (c, h') ->
    h' = h /\ exists this, this_of h r = Some this /\ c = fst (m this).
Proof.
  intros Hm r h c h'. unfold invoke.
  destruct (this_of h r) as [this|] eqn:Hthis; [|discriminate]. cbn.
  specialize (Hm this). destruct (m this) as [c0 this'] eqn:Em.
  cbn in Hm. subst this'.
  intros [= <- <-]. split; [now apply store_this_id|].
  exists this. rewrite Em. split; reflexivity.
Qed.

Lemma this_of_new objs insts r sku ty d :
  this_of (mkHeap objs (<[ r := mkInstance sku ty d ]> insts)) r
  = dm ← objs !! d; Some (mkPricingRule sku ty dm).
Proof. unfold this_of. cbn. rewrite lookup_insert_eq. reflexivity. Qed.

(** Construction by reference validates the object the reference leads
    to, and copies nothing. *)
Lemma new_PricingRule_ref_spec sku ty d h :
  new_PricingRule_ref sku ty d h
  = dm ← objects h !! d;
    match new_PricingRule sku ty dm with
    | Normal _ =>
        Some (Normal (fresh (dom (instances h))),
              mkHeap (objects h)
                (<[ fresh (dom (instances h)) := mkInstance sku ty d ]>
                   (instances h)))
    | Throw e => Some (Throw e, h)
    end.
Proof.
  unfold new_PricingRule_ref, invoke. cbv zeta. rewrite this_of_new.
  destruct (objects h !! d) as [dm|] eqn:Hd; [|reflexivity]. cbn.
  unfold new_PricingRule.
  pose proof (validateDefinition_this (mkPricingRule sku ty dm)) as Hthis.
  destruct (validateDefinition (mkPricingRule sku ty dm)) as [[[]|e] this'];
    cbn in Hthis; subst this'; cbn; [|reflexivity].
  rewrite store_this_id; [reflexivity|].
  rewrite this_of_new. cbn. now rewrite Hd.
Qed.

End HeapFacts.

Section HeapProperties.

Variable StringToNumber : string -> float.

Implicit Types (h : heap) (r d : ref) (this : PricingRule).

(** [apply] does not read the SKU identifier. *)
Lemma apply_ignores_skuId sku sku' ty (dm : gmap string value) count price :
  fst (apply StringToNumber count price (mkPricingRule sku' ty dm))
  = fst (apply StringToNumber count price (mkPricingRule sku ty dm)).
Proof.
  unfold apply, applyDiscount, applyReducedPrice, applyBoth, mbind,
    method_bind, mret, method_ret, this_type, this_definition, lift.
  cbn [type].
  repeat destruct (String.eqb ty _); cbv beta; cbn [definition];
    repeat case_match; reflexivity.
Qed.

(** C8 (amended).  An instance is valid when construction returns it:
    it is a fresh object that holds the three arguments, the caller's
    own definition object among them, and the fields required for its
    type are numbers.  Construction returns such an instance or throws
    and leaves the heap as it was.  Neither [validateDefinition] nor
    [apply] writes to the heap.  What [this] reaches, and with it the
    validity of the instance, is unchanged by whatever leaves the
    instance and its definition object alone. *)
Theorem constructed_valid_until_written :
  (forall sku ty d h r h',
      new_PricingRule_ref sku ty d h = Some (Normal r, h') ->
      instances h !! r = None
      /\ h' = mkHeap (objects h)
                (<[ r := mkInstance sku ty d ]> (instances h))
      /\ exists this,
           this_of h' r = Some this /\ valid this
           /\ skuId this = sku /\ type this = ty
           /\ objects h !! d = Some (definition this))
  /\ (forall sku ty d h e h',
         new_PricingRule_ref sku ty d h = Some (Throw e, h') -> h' = h)
  /\ (forall r h c h',
         invoke validateDefinition r h = Some (c, h') -> h' = h)
  /\ (forall r h count price c h',
         invoke (apply StringToNumber count price) r h = Some (c, h') ->
         h' = h)
  /\ (forall r h h' i,
         instances h !! r = Some i ->
         instances h' !! r = Some i ->
         objects h' !! i_definition i = objects h !! i_definition i ->
         this_of h' r = this_of h r).
Proof.
  split; [| split; [| split; [| split]]].
  - intros sku ty d h r h'. rewrite new_PricingRule_ref_spec.
    destruct (objects h !! d) as [dm|] eqn:Hd; [|discriminate]. cbn.
    destruct (new_PricingRule sku ty dm) as [this|e] eqn:Hnew;
      [|discriminate].
    intros [= <- <-]. split; [apply not_elem_of_dom, is_fresh|].
    split; [reflexivity|].
    apply new_PricingRule_Normal in Hnew as [-> Hv].
    exists (mkPricingRule sku ty dm). rewrite this_of_new, Hd. cbn. auto.
  - intros sku ty d h e h'. rewrite new_PricingRule_ref_spec.
    destruct (objects h !! d) as [dm|]; [|discriminate]. cbn.
    destruct (new_PricingRule sku ty dm); [discriminate|].
    now intros [= _ <-].
  - intros r h c h' H.
    now apply (invoke_reader _ validateDefinition_this) in H as [-> _].
  - intros r h count price c h' H.
    apply (invoke_reader _
             (fun this => apply_this StringToNumber this count price))
      in H as [-> _].
    reflexivity.
  - intros r h h' i Hi Hi' Hd. unfold this_of.
    rewrite Hi, Hi'. cbn. now rewrite Hd.
Qed.

(** C9.  A call of [apply] leaves the heap as it found it, so that a
    second call with the same arguments on the same instance completes
    with the same result; and the result is a function of the count, the
    price and the type and definition the instance holds: any instance,
    in any heap, with that type and a definition of that content
    completes with the same result. *)
Theorem apply_leaves_heap_and_repeats r h count price c h' :
  invoke (apply StringToNumber count price) r h = Some (c, h') ->
  h' = h
  /\ invoke (apply StringToNumber count price) r h' = Some (c, h')
  /\ forall r2 h2 this this2,
       this_of h r = Some this ->
       this_of h2 r2 = Some this2 ->
       type this2 = type this ->
       definition this2 = definition this ->
       invoke (apply StringToNumber count price) r2 h2 = Some (c, h2).
Proof.
  intros H. pose proof H as H0.
  apply (invoke_reader _
           (fun this => apply_this StringToNumber this count price))
    in H0 as [-> (this0 & Hthis0 & Hc)].
  split; [reflexivity|]. split; [exact H|].
  intros r2 h2 this this2 Hthis Hthis2 Hty Hdef.
  assert (this0 = this) as -> by congruence.
  unfold invoke. rewrite Hthis2. cbn.
  pose proof (apply_this StringToNumber this2 count price) as Hsame.
  destruct (apply StringToNumber count price this2) as [c2 this2'] eqn:E2.
  cbn in Hsame. subst this2'. rewrite (store_this_id _ _ _ Hthis2).
  f_equal. f_equal. rewrite Hc. change c2 with (fst (c2, this2)).
  rewrite <- E2. destruct this as [s t dm], this2 as [s2 t2 dm2].
  cbn in Hty, Hdef. subst. apply apply_ignores_skuId.
Qed.

End HeapProperties.

(** ** The heap at concrete rules *)

Section HeapInstances.

Local Open Scope float_scope.

Ltac constructs := vm_compute; reflexivity.

(** [constructed_valid_until_written]: the caller constructs a rule from
    its "3 for 2" object and applies it. *)
Lemma constructed_in_caller_heap :
  new_PricingRule_ref "A" "discount" 1%positive caller_heap
  = Some (Normal 1%positive, shared_heap)
  /\ (exists this, this_of shared_heap 1%positive = Some this /\ valid this)
  /\ invoke (apply no_numeric_string 7 10) 1%positive shared_heap
     = Some (Normal 50, shared_heap).
Proof.
  destruct (constructed_valid_until_written no_numeric_string)
    as (Hnew & _ & _ & Happly & _).
  assert (new_PricingRule_ref "A" "discount" 1%positive caller_heap
          = Some (Normal 1%positive, shared_heap)) as H by constructs.
  split; [exact H|].
  destruct (Hnew _ _ _ _ _ _ H) as (_ & _ & this & Hthis & Hv & _).
  split; [exists this; split; assumption|].
  assert (invoke (apply no_numeric_string 7 10) 1%positive shared_heap
          = Some (Normal 50, shared_heap)) as E by constructs.
  pose proof (Happly _ _ _ _ _ _ E) as _. exact E.
Defined.

(** [apply_leaves_heap_and_repeats]: seven units of "3 for 2", twice on
    one instance and once on another instance in another heap. *)
Lemma apply_repeats_in_shared_heap :
  invoke (apply no_numeric_string 7 10) 1%positive shared_heap
  = Some (Normal 50, shared_heap)
  /\ invoke (apply no_numeric_string 7 10) 5%positive other_heap
     = Some (Normal 50, other_heap).
Proof.
  assert (invoke (apply no_numeric_string 7 10) 1%positive shared_heap
          = Some (Normal 50, shared_heap)) as H by constructs.
  split; [exact H|].
  destruct (apply_leaves_heap_and_repeats no_numeric_string _ _ _ _ _ _ H)
    as (_ & _ & Hother).
  apply (Hother 5%positive other_heap
           (mkPricingRule "A" "discount" three_for_two)
           (mkPricingRule "B" "discount" three_for_two));
    constructs.
Defined.

(** A write between two calls shows in the second: after
    [rule.definition.quantity = 7] seven units are one group. *)
Example assignment_between_calls_changes_total :
  exists h,
    invoke (assign_property "quantity" (VNumber 7)) 1%positive shared_heap
    = Some (Normal tt, h)
    /\ h <> shared_heap
    /\ invoke (apply no_numeric_string 7 10) 1%positive shared_heap
       = Some (Normal 50, shared_heap)
    /\ invoke (apply no_numeric_string 7 10) 1%positive h
       = Some (Normal 20, h).
Proof.
  eexists. split; [constructs|]. split; [|split; constructs].
  intros E. apply (f_equal (fun h => this_of h 1%positive)) in E.
  vm_compute in E. discriminate E.
Qed.

(** C8.  A constructed instance does not stay valid: the caller deletes
    [quantity] from the object it passed, assigns another type, or
    assigns another definition, and the instance lacks a required field;
    [apply] then charges NaN. *)
Lemma constructed_instance_invalidated :
  new_PricingRule_ref "A" "discount" 1%positive caller_heap
  = Some (Normal 1%positive, shared_heap)
  /\ this_of shared_heap 1%positive
     = Some (mkPricingRule "A" "discount" three_for_two)
  /\ valid (mkPricingRule "A" "discount" three_for_two)
  (* delete d.quantity *)
  /\ this_of (delete_property 1%positive "quantity" shared_heap) 1%positive
     = Some (mkPricingRule "A" "discount" (delete "quantity" three_for_two))
  /\ ~ valid (mkPricingRule "A" "discount" (delete "quantity" three_for_two))
  /\ (exists h,
         invoke (apply no_numeric_string 7 10) 1%positive
           (delete_property 1%positive "quantity" shared_heap)
         = Some (Normal nan, h))
  (* rule.type = "both" *)
  /\ (exists h,
         invoke (assign_type "both") 1%positive shared_heap
         = Some (Normal tt, h)
         /\ this_of h 1%positive
            = Some (mkPricingRule "A" "both" three_for_two))
  /\ ~ valid (mkPricingRule "A" "both" three_for_two)
  (* rule.definition = {} *)
  /\ this_of (assign_definition 1%positive
                (fst (new_object ∅ shared_heap))
                (snd (new_object ∅ shared_heap))) 1%positive
     = Some (mkPricingRule "A" "discount" ∅)
  /\ ~ valid (mkPricingRule "A" "discount" ∅).
Proof.
  split; [constructs|]. split; [constructs|].
  split.
  { eexists. split; [reflexivity|]. repeat constructor; eexists; constructs. }
  split; [constructs|].
  split.
  { intros (names & [= <-] & Hall).
    inversion_clear Hall as [|? ? [x Hq] _]. vm_compute in Hq. discriminate. }
  split; [eexists; constructs|].
  split; [eexists; split; constructs|].
  split.
  { intros (names & [= <-] & Hall).
    inversion_clear Hall as [|? ? _ Hall'].
    inversion_clear Hall' as [|? ? _ Hall''].
    inversion_clear Hall'' as [|? ? [x Hb] _]. vm_compute in Hb. discriminate. }
  split; [constructs|].
  intros (names & [= <-] & Hall).
  inversion_clear Hall as [|? ? [x Hq] _]. vm_compute in Hq. discriminate.
Qed.

End HeapInstances.
